(** * ZendeskClient.get_tickets: a shallow embedding and its properties

    The development follows [src/zendesk_mcp_server/zendesk_client.py].
    Python values are represented as follows:
    - [int] is [Z] (unbounded);
    - [str] is [string], read as a sequence of code points below 256
      (the character classes of [str.strip] and [str.isdigit] are the
      ones Python uses on that range);
    - [Optional[T]] is [option T], [None] being [None];
    - the result of [json.loads] is a [json] tree, a [dict] being an
      association list searched from the left;
    - an aware UTC [datetime] is the number of microseconds elapsed since
      0001-01-01T00:00:00, between [datetime.min] and [datetime.max];
    - the clock and the HTTP exchange are the two effects of the method;
      they live in a [World] that is threaded through the computation. *)

From Stdlib Require Import ZArith List String Ascii Bool Lia.
Import ListNotations.

Local Open Scope string_scope.
Local Open Scope Z_scope.

(** ** Python strings *)

Module PyStr.

(** [str.isspace] on one character (code points below 256). *)
Definition isspace_char (c : ascii) : bool :=
  let n := nat_of_ascii c in
  (((9 <=? n) && (n <=? 13)) || ((28 <=? n) && (n <=? 32))
   || (n =? 133) || (n =? 160))%nat.

(** [str.isdigit] on one character (code points below 256): the decimal
    digits and the superscripts two, three and one. *)
Definition isdigit_char (c : ascii) : bool :=
  let n := nat_of_ascii c in
  (((48 <=? n) && (n <=? 57)) || (n =? 178) || (n =? 179) || (n =? 185))%nat.

Fixpoint all_chars (p : ascii -> bool) (s : string) : bool :=
  match s with
  | EmptyString => true
  | String c s' => p c && all_chars p s'
  end.

(** [s.isdigit()]: every character is a digit and there is at least one. *)
Definition isdigit (s : string) : bool :=
  match s with
  | EmptyString => false
  | String _ _ => all_chars isdigit_char s
  end.

Fixpoint lstrip (s : string) : string :=
  match s with
  | EmptyString => EmptyString
  | String c s' => if isspace_char c then lstrip s' else s
  end.

Fixpoint rstrip (s : string) : string :=
  match s with
  | EmptyString => EmptyString
  | String c s' =>
      match rstrip s' with
      | EmptyString => if isspace_char c then EmptyString else String c EmptyString
      | r => String c r
      end
  end.

(** [s.strip()] *)
Definition strip (s : string) : string := rstrip (lstrip s).

(** Truth value of a [str]. *)
Definition truthy (s : string) : bool :=
  match s with EmptyString => false | String _ _ => true end.

(** Truth value of an [Optional[str]]. *)
Definition opt_truthy (o : option string) : bool :=
  match o with None => false | Some s => truthy s end.

(** [sep.join(parts)] *)
Fixpoint join (sep : string) (parts : list string) : string :=
  match parts with
  | [] => EmptyString
  | [p] => p
  | p :: rest => p ++ sep ++ join sep rest
  end.

(** [s.replace(old, new)] for a non-empty [old]: occurrences are replaced
    from the left and do not overlap.  [skip] counts the characters of a
    matched occurrence that remain to be dropped. *)
Fixpoint replace_from (old new : string) (skip : nat) (s : string) : string :=
  match s with
  | EmptyString => EmptyString
  | String c s' =>
      match skip with
      | S k => replace_from old new k s'
      | O =>
          if prefix old s
          then new ++ replace_from old new (Nat.pred (String.length old)) s'
          else String c (replace_from old new O s')
      end
  end.

Definition replace (old new s : string) : string := replace_from old new O s.

Definition digit_char (d : Z) : ascii := ascii_of_nat (48 + Z.to_nat (d mod 10)).

(** The [w] low decimal digits of [n], most significant first: [%0wd] for
    [0 <= n < 10^w]. *)
Fixpoint zero_padded (w : nat) (n : Z) : string :=
  match w with
  | O => EmptyString
  | S w' => zero_padded w' (n / 10) ++ String (digit_char n) EmptyString
  end.

Fixpoint pos_digits (fuel : nat) (n : Z) (acc : string) : string :=
  match fuel with
  | O => acc
  | S f =>
      let acc' := String (digit_char n) acc in
      if n / 10 =? 0 then acc' else pos_digits f (n / 10) acc'
  end.

(** [str(n)] for an [int]. *)
Definition str_of_int (n : Z) : string :=
  if n <? 0
  then String "-" (pos_digits (S (Z.to_nat (Z.log2 (- n)))) (- n) EmptyString)
  else pos_digits (S (Z.to_nat (Z.log2 n))) n EmptyString.

End PyStr.

(** ** Aware UTC datetimes *)

Module PyTime.

(** A [datetime] with [tzinfo=timezone.utc]: microseconds since
    0001-01-01T00:00:00+00:00. *)
Definition datetime := Z.

Definition us_per_second : Z := 1000000.
Definition us_per_hour : Z := 3600 * us_per_second.
Definition us_per_day : Z := 24 * us_per_hour.

(** [date.max.toordinal()] *)
Definition max_ordinal : Z := 3652059.

(** [datetime.min <= d <= datetime.max] *)
Definition in_range (d : Z) : bool :=
  (0 <=? d) && (d <? max_ordinal * us_per_day).

Inductive error := OverflowError.

(** [timedelta(hours=h)] is kept as a number of microseconds; the
    constructor refuses a magnitude above 999999999 days. *)
Definition timedelta_hours (h : Z) : error + Z :=
  let days := h / 24 in
  if (-999999999 <=? days) && (days <=? 999999999)
  then inr (h * us_per_hour)
  else inl OverflowError.

(** [d - td], refused when the result leaves the range of [datetime]. *)
Definition sub (d : datetime) (td : Z) : error + datetime :=
  if in_range (d - td) then inr (d - td)
  else inl OverflowError.

(** [now - timedelta(hours=h)] *)
Definition hours_before (now : datetime) (h : Z) : error + datetime :=
  match timedelta_hours h with
  | inl e => inl e
  | inr td => sub now td
  end.

(** Year, month and day of the proleptic Gregorian calendar from the number
    of days since 0001-01-01. *)
Definition civil_of_days (days : Z) : Z * Z * Z :=
  let z := days + 306 in
  let era := z / 146097 in
  let doe := z mod 146097 in
  let yoe := (doe - doe / 1460 + doe / 36524 - doe / 146096) / 365 in
  let doy := doe - (365 * yoe + yoe / 4 - yoe / 100) in
  let mp := (5 * doy + 2) / 153 in
  let d := doy - (153 * mp + 2) / 5 + 1 in
  let m := if mp <? 10 then mp + 3 else mp - 9 in
  let y := yoe + era * 400 + (if m <=? 2 then 1 else 0) in
  (y, m, d).

(** [d.isoformat()] for an aware UTC datetime:
    [YYYY-MM-DDTHH:MM:SS[.ffffff]+00:00], the fraction being printed only
    when the microsecond field is not zero. *)
Definition iso_body (d : datetime) : string :=
  let '(y, m, dd) := civil_of_days (d / us_per_day) in
  let rest := d mod us_per_day in
  let hh := rest / us_per_hour in
  let mi := (rest mod us_per_hour) / (60 * us_per_second) in
  let ss := (rest mod (60 * us_per_second)) / us_per_second in
  let us := rest mod us_per_second in
  PyStr.zero_padded 4 y ++ "-" ++ PyStr.zero_padded 2 m ++ "-"
    ++ PyStr.zero_padded 2 dd ++ "T" ++ PyStr.zero_padded 2 hh ++ ":"
    ++ PyStr.zero_padded 2 mi ++ ":" ++ PyStr.zero_padded 2 ss
    ++ (if us =? 0 then EmptyString else "." ++ PyStr.zero_padded 6 us).

Definition isoformat (d : datetime) : string := iso_body d ++ "+00:00".

(** [dt.isoformat().replace("+00:00", "Z")] *)
Definition utc_z (d : datetime) : string :=
  PyStr.replace "+00:00" "Z" (isoformat d).

(** The datetime of a calendar date and time of day (used to write
    concrete clock readings). *)
Definition days_of_civil (y m d : Z) : Z :=
  let y' := if m <=? 2 then y - 1 else y in
  let era := y' / 400 in
  let yoe := y' mod 400 in
  let mp := if m <=? 2 then m + 9 else m - 3 in
  let doy := (153 * mp + 2) / 5 + d - 1 in
  let doe := yoe * 365 + yoe / 4 - yoe / 100 + doy in
  era * 146097 + doe - 306.

Definition mk (y m d hh mi ss us : Z) : datetime :=
  days_of_civil y m d * us_per_day + hh * us_per_hour
  + mi * 60 * us_per_second + ss * us_per_second + us.

End PyTime.

(** ** JSON documents as [json.loads] returns them *)

(** Numbers are the integers; a [dict] is an association list with
    distinct keys. *)
#[warnings="-register-all"]
Inductive json : Type :=
| JNull
| JBool (b : bool)
| JInt (n : Z)
| JStr (s : string)
| JArr (items : list json)
| JObj (fields : list (string * json)).

Module PyJson.

(** Truth value of a Python object. *)
Definition truthy (v : json) : bool :=
  match v with
  | JNull => false
  | JBool b => b
  | JInt n => negb (n =? 0)
  | JStr s => PyStr.truthy s
  | JArr l => match l with [] => false | _ :: _ => true end
  | JObj l => match l with [] => false | _ :: _ => true end
  end.

(** [v is not None] *)
Definition is_not_none (v : json) : bool :=
  match v with JNull => false | _ => true end.

Fixpoint lookup (key : string) (fields : list (string * json)) : option json :=
  match fields with
  | [] => None
  | (k, v) :: rest => if String.eqb k key then Some v else lookup key rest
  end.

Inductive error := AttributeError | TypeError.

(** [d.get(key, default)]; only a [dict] has the method. *)
Definition get_default (d : json) (key : string) (default : json) : error + json :=
  match d with
  | JObj fields =>
      inr (match lookup key fields with Some v => v | None => default end)
  | _ => inl AttributeError
  end.

(** [d.get(key)] *)
Definition get (d : json) (key : string) : error + json := get_default d key JNull.

Fixpoint chars (s : string) : list json :=
  match s with
  | EmptyString => []
  | String c s' => JStr (String c EmptyString) :: chars s'
  end.

(** The elements a [for] loop visits. *)
Definition iterate (v : json) : error + list json :=
  match v with
  | JArr items => inr items
  | JObj fields => inr (map (fun kv => JStr (fst kv)) fields)
  | JStr s => inr (chars s)
  | JNull | JBool _ | JInt _ => inl TypeError
  end.

End PyJson.

(** ** Records of the method *)

(** The keyword arguments of [get_tickets]. *)
Module Args.
Record t := mk {
  page : Z;
  per_page : Z;
  sort_by : string;
  sort_order : string;
  agent : option string;
  organization : option string;
  updated_since : option string;
  last_hours : option Z;
  stale_hours : option Z;
  include_solved : bool
}.

(** The defaults of the signature. *)
Definition default : t :=
  mk 1 25 "created_at" "desc" None None None None None false.
End Args.

(** One entry of the ["tickets"] list. *)
Module Ticket.
Record t := mk {
  id : json;
  subject : json;
  status : json;
  priority : json;
  description : json;
  created_at : json;
  updated_at : json;
  requester_id : json;
  assignee_id : json;
  organization_id : json
}.
End Ticket.

(** The ["filters"] entry of the search path. *)
Module Filters.
Record t := mk {
  agent : option string;
  organization : option string;
  updated_since : option string;
  last_hours : option Z;
  stale_hours : option Z;
  include_solved : bool
}.
End Filters.

(** The returned dict.  [filters = None] says that the key is missing;
    [next_page] and [previous_page] are [None] where Python stores [None]. *)
Module TicketPage.
Record t := mk {
  tickets : list Ticket.t;
  page : Z;
  per_page : Z;
  count : Z;
  sort_by : string;
  sort_order : string;
  filters : option Filters.t;
  has_more : bool;
  next_page : option Z;
  previous_page : option Z
}.
End TicketPage.

(** ** Effects: the clock and the vendor *)

(** [l.append(x)] *)
Definition list_append {A} (l : list A) (x : A) : list A := (l ++ [x])%list.

Inductive endpoint := SearchJson | TicketsJson.

(** A [urllib.request.Request]: the URL is kept as its three parts,
    [base_url], the path and the parameters given to [urlencode]. *)
Record Request := mkRequest {
  req_base : string;
  req_endpoint : endpoint;
  req_params : list (string * string);
  req_headers : list (string * string)
}.

(** What can be raised inside the [try] block. *)
Inductive exn :=
| HTTPError (code : Z) (reason : string) (body : option string)
| TransportError (detail : string)
| TimeError (e : PyTime.error)
| JsonError (e : PyJson.error).

(** The exception that leaves the method. *)
Inductive failure :=
| FailedHttp (code : Z) (reason : string) (error_body : string)
| Failed (cause : exn).

Record World := mkWorld {
  clock : nat -> PyTime.datetime;
  ticks : nat;
  vendor : Request -> exn + json;
  sent : list Request
}.

Definition M (A : Type) : Type := World -> (exn + A) * World.

Definition ret {A} (a : A) : M A := fun w => (inr a, w).

Definition raise {A} (e : exn) : M A := fun w => (inl e, w).

Definition bind {A B} (m : M A) (k : A -> M B) : M B :=
  fun w =>
    match m w with
    | (inl e, w') => (inl e, w')
    | (inr a, w') => k a w'
    end.

Notation "x <- m ;; k" := (bind m (fun x => k))
  (at level 61, m at next level, right associativity).

(** [datetime.now(timezone.utc)] *)
Definition now_utc : M PyTime.datetime :=
  fun w => (inr (clock w (ticks w)),
            mkWorld (clock w) (S (ticks w)) (vendor w) (sent w)).

(** [json.loads(urlopen(req).read().decode())] *)
Definition urlopen_json (req : Request) : M json :=
  fun w => (vendor w req,
            mkWorld (clock w) (ticks w) (vendor w) (list_append (sent w) req)).

Definition lift_time {A} (r : PyTime.error + A) : M A :=
  match r with inl e => raise (TimeError e) | inr a => ret a end.

Definition lift_json {A} (r : PyJson.error + A) : M A :=
  match r with inl e => raise (JsonError e) | inr a => ret a end.

(** ** The method *)

(** The attributes of [ZendeskClient] that [get_tickets] reads. *)
Record Client := mkClient {
  base_url : string;
  auth_header : string
}.

Definition dquote : string := String "034"%char EmptyString.

Definition is_some {A} (o : option A) : bool :=
  match o with Some _ => true | None => false end.

Definition ebind {A B} (r : PyJson.error + A) (k : A -> PyJson.error + B)
  : PyJson.error + B :=
  match r with inl e => inl e | inr a => k a end.

(** The dict appended to [ticket_list] (both paths). *)
Definition ticket_of (item : json) : PyJson.error + Ticket.t :=
  ebind (PyJson.get item "id") (fun id =>
  ebind (PyJson.get item "subject") (fun subject =>
  ebind (PyJson.get item "status") (fun status =>
  ebind (PyJson.get item "priority") (fun priority =>
  ebind (PyJson.get item "description") (fun description =>
  ebind (PyJson.get item "created_at") (fun created_at =>
  ebind (PyJson.get item "updated_at") (fun updated_at =>
  ebind (PyJson.get item "requester_id") (fun requester_id =>
  ebind (PyJson.get item "assignee_id") (fun assignee_id =>
  ebind (PyJson.get item "organization_id") (fun organization_id =>
  inr (Ticket.mk id subject status priority description created_at
         updated_at requester_id assignee_id organization_id))))))))))).

(** [v not in (None, "ticket")] *)
Definition not_none_or_ticket (v : json) : bool :=
  match v with
  | JNull => false
  | JStr s => negb (String.eqb s "ticket")
  | _ => true
  end.

(** The loop over [results] of the search path. *)
Fixpoint search_loop (results : list json) (ticket_list : list Ticket.t)
  : PyJson.error + list Ticket.t :=
  match results with
  | [] => inr ticket_list
  | item :: rest =>
      ebind (PyJson.get item "result_type") (fun rt =>
        if not_none_or_ticket rt then search_loop rest ticket_list
        else ebind (ticket_of item) (fun t =>
               search_loop rest (list_append ticket_list t)))
  end.

(** The loop over [tickets_data] of the direct listing. *)
Fixpoint listing_loop (tickets_data : list json) (ticket_list : list Ticket.t)
  : PyJson.error + list Ticket.t :=
  match tickets_data with
  | [] => inr ticket_list
  | ticket :: rest =>
      ebind (ticket_of ticket) (fun t => listing_loop rest (list_append ticket_list t))
  end.

(** The test that selects the Search API. *)
Definition has_filters (a : Args.t) : bool :=
  PyStr.opt_truthy (Args.agent a) || PyStr.opt_truthy (Args.organization a)
  || PyStr.opt_truthy (Args.updated_since a)
  || is_some (Args.last_hours a) || is_some (Args.stale_hours a).

(** [now - timedelta(hours=int(h))], formatted. *)
Definition stamp_hours_ago (h : Z) : M string :=
  now <- now_utc ;;
  dt <- lift_time (PyTime.hours_before now h) ;;
  ret (PyTime.utc_z dt).

(** From [query_parts = ["type:ticket"]] to the last [append]: the final
    [query_parts] and the final value of [updated_since]. *)
Definition build_query (a : Args.t) : M (list string * option string) :=
  let query_parts := ["type:ticket"] in
  let query_parts :=
    match Args.agent a with
    | Some agent =>
        if PyStr.truthy agent then
          let agent_str := PyStr.strip agent in
          if PyStr.isdigit agent_str
          then list_append query_parts ("assignee_id:" ++ agent_str)
          else list_append query_parts ("assignee:" ++ dquote ++ agent_str ++ dquote)
        else query_parts
    | None => query_parts
    end in
  let query_parts :=
    match Args.organization a with
    | Some organization =>
        if PyStr.truthy organization then
          let org_str := PyStr.strip organization in
          list_append query_parts ("organization:" ++ dquote ++ org_str ++ dquote)
        else query_parts
    | None => query_parts
    end in
  updated_before <-
    match Args.stale_hours a with
    | Some stale_hours => s <- stamp_hours_ago stale_hours ;; ret (Some s)
    | None => ret None
    end ;;
  let query_parts :=
    if is_some (Args.stale_hours a) && negb (Args.include_solved a)
    then list_append query_parts "status<solved"
    else query_parts in
  updated_since <-
    match Args.last_hours a with
    | Some last_hours => s <- stamp_hours_ago last_hours ;; ret (Some s)
    | None => ret (Args.updated_since a)
    end ;;
  let query_parts :=
    match updated_before with
    | Some ub =>
        if PyStr.truthy ub then list_append query_parts ("updated<" ++ ub) else query_parts
    | None => query_parts
    end in
  let query_parts :=
    match updated_since with
    | Some us =>
        if PyStr.truthy us then
          let since_str := PyStr.strip us in
          list_append query_parts ("updated>" ++ since_str)
        else query_parts
    | None => query_parts
    end in
  ret (query_parts, updated_since).

Definition request_headers (self : Client) : list (string * string) :=
  [("Authorization", auth_header self); ("Content-Type", "application/json")].

(** The value of [per_page] after [per_page = min(per_page, 100)]. *)
Definition capped_per_page (a : Args.t) : Z := Z.min (Args.per_page a) 100.

(** The request of the search path, from [query = " ".join(query_parts)]
    to the last [add_header]. *)
Definition search_request (self : Client) (a : Args.t) (query_parts : list string)
  : Request :=
  let query := PyStr.join " " query_parts in
  let params :=
    [("query", query); ("page", PyStr.str_of_int (Args.page a));
     ("per_page", PyStr.str_of_int (capped_per_page a));
     ("sort_by", Args.sort_by a); ("sort_order", Args.sort_order a)] in
  mkRequest (base_url self) SearchJson params (request_headers self).

(** The request of the direct listing. *)
Definition listing_request (self : Client) (a : Args.t) : Request :=
  let params :=
    [("page", PyStr.str_of_int (Args.page a));
     ("per_page", PyStr.str_of_int (capped_per_page a));
     ("sort_by", Args.sort_by a); ("sort_order", Args.sort_order a)] in
  mkRequest (base_url self) TicketsJson params (request_headers self).

(** The search path from [results = data.get("results", [])] to its
    [return]. *)
Definition search_page (a : Args.t) (updated_since : option string) (data : json)
  : PyJson.error + TicketPage.t :=
  let page := Args.page a in
  let per_page := capped_per_page a in
  ebind (PyJson.get_default data "results" (JArr [])) (fun results =>
  ebind (ebind (PyJson.iterate results) (fun l => search_loop l []))
    (fun ticket_list =>
  ebind (PyJson.get data "next_page") (fun next =>
  inr (TicketPage.mk ticket_list page per_page
         (Z.of_nat (List.length ticket_list)) (Args.sort_by a) (Args.sort_order a)
         (Some (Filters.mk (Args.agent a) (Args.organization a) updated_since
                  (Args.last_hours a) (Args.stale_hours a)
                  (Args.include_solved a)))
         (PyJson.is_not_none next)
         (if PyJson.truthy next then Some (page + 1) else None)
         (if 1 <? page then Some (page - 1) else None))))).

(** The direct listing from [tickets_data = data.get("tickets", [])] to its
    [return]. *)
Definition listing_page (a : Args.t) (data : json) : PyJson.error + TicketPage.t :=
  let page := Args.page a in
  let per_page := capped_per_page a in
  ebind (PyJson.get_default data "tickets" (JArr [])) (fun tickets_data =>
  ebind (ebind (PyJson.iterate tickets_data) (fun l => listing_loop l []))
    (fun ticket_list =>
  ebind (PyJson.get data "next_page") (fun next =>
  ebind (PyJson.get data "previous_page") (fun previous =>
  inr (TicketPage.mk ticket_list page per_page
         (Z.of_nat (List.length ticket_list)) (Args.sort_by a) (Args.sort_order a)
         None
         (PyJson.is_not_none next)
         (if PyJson.truthy next then Some (page + 1) else None)
         (if PyJson.truthy previous && (1 <? page)
          then Some (page - 1) else None)))))).

(** The branch taken when a filter is present. *)
Definition search_path (self : Client) (a : Args.t) : M TicketPage.t :=
  built <- build_query a ;;
  let query_parts := fst built in
  let updated_since := snd built in
  data <- urlopen_json (search_request self a query_parts) ;;
  lift_json (search_page a updated_since data).

(** The code after the [if]: the original [/tickets.json] behaviour. *)
Definition listing_path (self : Client) (a : Args.t) : M TicketPage.t :=
  data <- urlopen_json (listing_request self a) ;;
  lift_json (listing_page a data).

(** The two [except] clauses. *)
Definition wrap_failure (e : exn) : failure :=
  match e with
  | HTTPError code reason body =>
      FailedHttp code reason
        (match body with Some b => b | None => "No response body" end)
  | _ => Failed e
  end.

(** [try: ... except ...] around a computation. *)
Definition guarded {A} (m : M A) : World -> (failure + A) * World :=
  fun w =>
    match m w with
    | (inr r, w') => (inr r, w')
    | (inl e, w') => (inl (wrap_failure e), w')
    end.

(** [ZendeskClient.get_tickets] *)
Definition get_tickets (self : Client) (a : Args.t)
  : World -> (failure + TicketPage.t) * World :=
  guarded (if has_filters a then search_path self a else listing_path self a).

(** The requests a call adds to the log. *)
Definition requests_of (self : Client) (a : Args.t) (w : World) : list Request :=
  skipn (List.length (sent w)) (sent (snd (get_tickets self a w))).

(** ** Sample worlds *)

Definition sample_client : Client :=
  mkClient "https://acme.zendesk.com/api/v2" "Basic ZGVtbw==".

(** A clock that starts at 2026-02-26T10:00:00Z and advances by one
    microsecond per reading. *)
Definition sample_clock (k : nat) : PyTime.datetime :=
  PyTime.mk 2026 2 26 10 0 0 0 + Z.of_nat k.

(** A vendor that answers every request with [data]. *)
Definition sample_world (data : json) : World :=
  mkWorld sample_clock O (fun _ => inr data) [].

Definition sample_item (n : Z) (kind : json) : json :=
  JObj [("id", JInt n); ("subject", JStr "printer"); ("status", JStr "open");
        ("result_type", kind)].

(** A search answer with three entries of mixed kinds and a next page. *)
Definition sample_results : json :=
  JObj [("results",
         JArr [sample_item 1 (JStr "ticket"); sample_item 2 (JStr "user");
               sample_item 3 JNull]);
        ("next_page", JStr "https://acme.zendesk.com/api/v2/search.json?page=2")].

(** A listing answer without neighbouring pages. *)
Definition sample_listing : json :=
  JObj [("tickets", JArr [sample_item 7 JNull]);
        ("next_page", JNull); ("previous_page", JNull)].

(** An answer whose [next_page] is the empty string. *)
Definition blank_next_page : json :=
  JObj [("results", JArr []); ("tickets", JArr []);
        ("next_page", JStr EmptyString)].

(** [get_tickets(agent='')] *)
Definition args_empty_agent : Args.t :=
  Args.mk 1 25 "created_at" "desc" (Some EmptyString) None None None None false.

(** [get_tickets(agent='', organization='Acme')] *)
Definition args_empty_agent_org : Args.t :=
  Args.mk 1 25 "created_at" "desc" (Some EmptyString) (Some "Acme") None None
    None false.

(** [get_tickets(page=2, agent="Jane Doe", updated_since="2026-01-01",
    last_hours=6, stale_hours=24)] *)
Definition args_window : Args.t :=
  Args.mk 2 25 "created_at" "desc" (Some "Jane Doe") None (Some "2026-01-01")
    (Some 6) (Some 24) false.

(** [get_tickets(per_page=-5)] *)
Definition args_negative_per_page : Args.t :=
  Args.mk 1 (-5) "created_at" "desc" None None None None None false.

(** [get_tickets(page=2)] *)
Definition args_second_page : Args.t :=
  Args.mk 2 25 "created_at" "desc" None None None None None false.

(** [get_tickets(stale_hours=24, include_solved=True)] *)
Definition args_stale_all : Args.t :=
  Args.mk 1 25 "created_at" "desc" None None None None (Some 24) true.

(** [get_tickets(agent=" 12345 ")] *)
Definition args_agent_id : Args.t :=
  Args.mk 1 25 "created_at" "desc" (Some " 12345 ") None None None None false.

(** A listing answer whose entries declare other kinds. *)
Definition mixed_listing : json :=
  JObj [("tickets",
         JArr [sample_item 1 (JStr "ticket"); sample_item 2 (JStr "user")])].


(** A search answer whose second entry is a string. *)
Definition broken_results : json :=
  JObj [("results", JArr [sample_item 1 (JStr "ticket"); JStr "oops"])].

(** An answer without ticket lists. *)
Definition bare_answer : json := JObj [("count", JInt 0)].

(** [get_tickets(organization=" Acme Corp ", updated_since=" 2026-01-01 ")] *)
Definition args_org_since : Args.t :=
  Args.mk 1 25 "created_at" "desc" None (Some " Acme Corp ")
    (Some " 2026-01-01 ") None None false.

(** ** Descriptions used in the statements *)

(** The characters [isoformat] writes before the offset. *)
Definition stamp_char (c : ascii) : bool :=
  negb (Ascii.eqb c "+") && negb (PyStr.isspace_char c).

(** The tokens each filter contributes to the query. *)
Definition agent_tokens (agent : option string) : list string :=
  match agent with
  | Some s =>
      if PyStr.truthy s then
        if PyStr.isdigit (PyStr.strip s)
        then ["assignee_id:" ++ PyStr.strip s]
        else ["assignee:" ++ dquote ++ PyStr.strip s ++ dquote]
      else []
  | None => []
  end.

Definition organization_tokens (organization : option string) : list string :=
  match organization with
  | Some s =>
      if PyStr.truthy s
      then ["organization:" ++ dquote ++ PyStr.strip s ++ dquote]
      else []
  | None => []
  end.

Definition status_tokens (a : Args.t) : list string :=
  if is_some (Args.stale_hours a) && negb (Args.include_solved a)
  then ["status<solved"] else [].

Definition before_tokens (updated_before : option string) : list string :=
  match updated_before with
  | Some s => if PyStr.truthy s then ["updated<" ++ s] else []
  | None => []
  end.

Definition since_tokens (updated_since : option string) : list string :=
  match updated_since with
  | Some s => if PyStr.truthy s then ["updated>" ++ PyStr.strip s] else []
  | None => []
  end.

Definition query_tokens (a : Args.t) (updated_before updated_since : option string)
  : list string :=
  ("type:ticket" :: agent_tokens (Args.agent a)
     ++ organization_tokens (Args.organization a) ++ status_tokens a
     ++ before_tokens updated_before ++ since_tokens updated_since)%list.

(** The stamp [h] hours before [now], when [h] is given. *)
Definition stamp_opt (now : PyTime.datetime) (h : option Z)
  : PyTime.error + option string :=
  match h with
  | None => inr None
  | Some h =>
      match PyTime.hours_before now h with
      | inl e => inl e
      | inr d => inr (Some (PyTime.utc_z d))
      end
  end.

(** The index of the clock reading that [last_hours] uses. *)
Definition last_tick (a : Args.t) (w : World) : nat :=
  if is_some (Args.stale_hours a) then S (ticks w) else ticks w.

(** What the [try] block yields once [req] is sent: the vendor's failure,
    or the page built from its document. *)
Definition answer (w : World) (req : Request)
    (page_of : json -> PyJson.error + TicketPage.t) : exn + TicketPage.t :=
  match vendor w req with
  | inl e => inl e
  | inr data =>
      match page_of data with
      | inl e => inl (JsonError e)
      | inr r => inr r
      end
  end.

(** The outcome of the method for the outcome of its [try] block. *)
Definition finish (r : exn + TicketPage.t) : failure + TicketPage.t :=
  match r with
  | inl e => inl (wrap_failure e)
  | inr p => inr p
  end.

(** The value of [updated_since] after the [last_hours] block, [ls] being
    the stamp of [last_hours]. *)
Definition final_since (a : Args.t) (ls : option string) : option string :=
  match ls with
  | Some s => Some s
  | None => Args.updated_since a
  end.

(** [urlencode]'s input for [key]. *)
Definition param (key : string) (req : Request) : option string :=
  match find (fun kv => String.eqb (fst kv) key) (req_params req) with
  | Some kv => Some (snd kv)
  | None => None
  end.

Definition is_dict (v : json) : bool :=
  match v with JObj _ => true | _ => false end.

(** The call sends one request, a search whose query is [parts] joined by
    single spaces. *)
Definition sends_query (self : Client) (a : Args.t) (w : World)
    (parts : list string) : Prop :=
  exists req,
    requests_of self a w = [req]
    /\ req_endpoint req = SearchJson
    /\ param "query" req = Some (PyStr.join " " parts).

(** The dates that [stale_hours] and [last_hours] ask for exist: the
    subtractions do not overflow. *)
Definition dates_in_range (a : Args.t) (w : World) : Prop :=
  (forall sh, Args.stale_hours a = Some sh ->
     exists d, PyTime.hours_before (clock w (ticks w)) sh = inr d)
  /\ (forall lh, Args.last_hours a = Some lh ->
        exists d, PyTime.hours_before (clock w (last_tick a w)) lh = inr d).

(** The entry [key] of the document, when there is one, is a list of
    dicts. *)
Definition lists_dicts (f : list (string * json)) (key : string) : Prop :=
  match PyJson.lookup key f with
  | None => True
  | Some v => exists items, v = JArr items /\ forallb is_dict items = true
  end.

(** The key of the vendor's document that the path reads its entries
    from. *)
Definition list_key (a : Args.t) : string :=
  if has_filters a then "results" else "tickets".

(** [o] holds a string that is not empty. *)
Definition nonempty (o : option string) : Prop :=
  exists s, o = Some s /\ s <> EmptyString.

(** A filter that selects the Search API is given. *)
Definition filter_given (a : Args.t) : Prop :=
  nonempty (Args.agent a) \/ nonempty (Args.organization a)
  \/ nonempty (Args.updated_since a)
  \/ Args.last_hours a <> None \/ Args.stale_hours a <> None.

(** [d[key]] when [d] is a dict holding [key], [None] otherwise. *)
Definition field (item : json) (key : string) : json :=
  match item with
  | JObj fields =>
      match PyJson.lookup key fields with Some v => v | None => JNull end
  | _ => JNull
  end.

(** The ticket summary of an entry, field by field. *)
Definition summary (item : json) : Ticket.t :=
  Ticket.mk (field item "id") (field item "subject") (field item "status")
    (field item "priority") (field item "description") (field item "created_at")
    (field item "updated_at") (field item "requester_id")
    (field item "assignee_id") (field item "organization_id").

(** The entry declares a result type that is not ["ticket"]. *)
Definition other_kind (item : json) : bool :=
  match field item "result_type" with
  | JNull => false
  | JStr s => negb (String.eqb s "ticket")
  | _ => true
  end.

(** ** The methods that go through the SDK

    [self.client] is the Zenpy handle.  Its calls are an effect: each one is
    appended to the log of the world and answered by the SDK, whose answer
    may depend on the calls made before.  A Python value is a [pyval]; an
    object of the SDK is the map of its attributes.  Objects are true and
    are not iterable. *)

Module Sdk.

#[warnings="-register-all"]
Inductive pyval : Type :=
| VNone
| VBool (b : bool)
| VInt (n : Z)
| VStr (s : string)
| VList (items : list pyval)
| VDict (entries : list (string * pyval))
| VObj (attrs : list (string * pyval)).

(** Truth value of a Python object. *)
Definition truthy (v : pyval) : bool :=
  match v with
  | VNone => false
  | VBool b => b
  | VInt n => negb (n =? 0)
  | VStr s => PyStr.truthy s
  | VList l => match l with [] => false | _ :: _ => true end
  | VDict l => match l with [] => false | _ :: _ => true end
  | VObj _ => true
  end.

Definition is_none (v : pyval) : bool :=
  match v with VNone => true | _ => false end.

Fixpoint lookup (name : string) (attrs : list (string * pyval)) : option pyval :=
  match attrs with
  | [] => None
  | (k, v) :: rest => if String.eqb k name then Some v else lookup name rest
  end.

(** The attributes after [name] is bound to [value]. *)
Fixpoint store (name : string) (value : pyval) (attrs : list (string * pyval))
  : list (string * pyval) :=
  match attrs with
  | [] => [(name, value)]
  | (k, v) :: rest =>
      if String.eqb k name then (k, value) :: rest
      else (k, v) :: store name value rest
  end.

Inductive error :=
| SdkError (detail : string)
| AttributeError
| TypeError.

Definition ebind {A B} (r : error + A) (k : A -> error + B) : error + B :=
  match r with inl e => inl e | inr a => k a end.

(** [v.name] *)
Definition attr (v : pyval) (name : string) : error + pyval :=
  match v with
  | VObj attrs =>
      match lookup name attrs with
      | Some x => inr x
      | None => inl AttributeError
      end
  | _ => inl AttributeError
  end.

(** [getattr(v, name, default)], for the attribute names of the methods
    (none is an attribute of [None], a number, a string, a list or a
    dict). *)
Definition getattr (v : pyval) (name : string) (default : pyval) : pyval :=
  match v with
  | VObj attrs =>
      match lookup name attrs with
      | Some x => x
      | None => default
      end
  | _ => default
  end.

(** [setattr(v, name, value)], returning the object as it is afterwards. *)
Definition setattr (v : pyval) (name : string) (value : pyval) : error + pyval :=
  match v with
  | VObj attrs => inr (VObj (store name value attrs))
  | _ => inl AttributeError
  end.

Fixpoint chars (s : string) : list pyval :=
  match s with
  | EmptyString => []
  | String c s' => VStr (String c EmptyString) :: chars s'
  end.

(** [list(v)] *)
Definition to_list (v : pyval) : error + list pyval :=
  match v with
  | VList items => inr items
  | VDict entries => inr (map (fun kv => VStr (fst kv)) entries)
  | VStr s => inr (chars s)
  | VNone | VBool _ | VInt _ | VObj _ => inl TypeError
  end.

(** [x or y] *)
Definition or_else (x y : pyval) : pyval := if truthy x then x else y.

Definition of_int (o : option Z) : pyval :=
  match o with Some n => VInt n | None => VNone end.

Definition of_str (o : option string) : pyval :=
  match o with Some s => VStr s | None => VNone end.

Definition of_strs (o : option (list string)) : pyval :=
  match o with Some l => VList (map VStr l) | None => VNone end.

(** A section of the help center as Zenpy gives it: the name is a string
    or [None]. *)
Record Section := mkSection {
  section_id : pyval;
  section_name : option string;
  section_description : pyval
}.

Record Article := mkArticle {
  article_id : pyval;
  article_title : pyval;
  article_body : pyval;
  article_updated_at : pyval;
  article_html_url : pyval
}.

(** The arguments of [ZenpyTicket(...)] in [create_ticket]. *)
Record NewTicket := mkNewTicket {
  new_subject : string;
  new_description : string;
  new_requester_id : option Z;
  new_assignee_id : option Z;
  new_priority : option string;
  new_type : option string;
  new_tags : option (list string);
  new_custom_fields : option (list pyval)
}.

Inductive call :=
| TicketsGet (id : pyval)
| TicketsComments (ticket : pyval)
| TicketsUpdate (ticket : pyval)
| TicketsCreate (ticket : NewTicket)
| HelpSections
| SectionArticles (section : pyval).

(** The answers of the SDK, each from the calls made so far. *)
Record Zenpy := mkZenpy {
  tickets_get : list call -> pyval -> error + pyval;
  tickets_comments : list call -> pyval -> error + list pyval;
  tickets_update : list call -> pyval -> error + pyval;
  tickets_create : list call -> NewTicket -> error + pyval;
  help_sections : list call -> error + list Section;
  section_articles : list call -> pyval -> error + list Article
}.

(** [render] is [str] on lists, dicts and objects (a [datetime] is one). *)
Record World := mkWorld {
  zenpy : Zenpy;
  render : pyval -> string;
  calls : list call
}.

Definition M (A : Type) : Type := World -> (error + A) * World.

Definition ret {A} (a : A) : M A := fun w => (inr a, w).

Definition bind {A B} (m : M A) (k : A -> M B) : M B :=
  fun w =>
    match m w with
    | (inl e, w') => (inl e, w')
    | (inr a, w') => k a w'
    end.

Definition lift {A} (r : error + A) : M A := fun w => (r, w).

Definition logged (c : call) (w : World) : World :=
  mkWorld (zenpy w) (render w) (list_append (calls w) c).

(** [self.client.tickets(id=id)] *)
Definition tickets (id : pyval) : M pyval :=
  fun w => (tickets_get (zenpy w) (calls w) id, logged (TicketsGet id) w).

(** [self.client.tickets.comments(ticket=ticket)], iterated to its end. *)
Definition comments_of (ticket : pyval) : M (list pyval) :=
  fun w => (tickets_comments (zenpy w) (calls w) ticket,
            logged (TicketsComments ticket) w).

(** [self.client.tickets.update(ticket)] *)
Definition update (ticket : pyval) : M pyval :=
  fun w => (tickets_update (zenpy w) (calls w) ticket,
            logged (TicketsUpdate ticket) w).

(** [self.client.tickets.create(ticket)] *)
Definition create (ticket : NewTicket) : M pyval :=
  fun w => (tickets_create (zenpy w) (calls w) ticket,
            logged (TicketsCreate ticket) w).

(** [self.client.help_center.sections()], iterated to its end. *)
Definition sections : M (list Section) :=
  fun w => (help_sections (zenpy w) (calls w), logged HelpSections w).

(** [self.client.help_center.sections.articles(id)], iterated to its end. *)
Definition articles_of (id : pyval) : M (list Article) :=
  fun w => (section_articles (zenpy w) (calls w) id,
            logged (SectionArticles id) w).

(** [str(v)] *)
Definition py_str (w : World) (v : pyval) : string :=
  match v with
  | VNone => "None"
  | VBool true => "True"
  | VBool false => "False"
  | VInt n => PyStr.str_of_int n
  | VStr s => s
  | VList _ | VDict _ | VObj _ => render w v
  end.

(** The exception that leaves a method: the text before the colon and the
    exception caught. *)
Inductive failure := Failed (message : string) (cause : error).

(** [try: ... except Exception as e: raise Exception(f"{message}: {e}")] *)
Definition guarded {A} (message : string) (m : M A)
  : World -> (failure + A) * World :=
  fun w =>
    match m w with
    | (inr r, w') => (inr r, w')
    | (inl e, w') => (inl (Failed message e), w')
    end.

(** The dict [get_ticket] returns. *)
Record TicketBasic := mkTicketBasic {
  b_id : pyval;
  b_subject : pyval;
  b_description : pyval;
  b_status : pyval;
  b_priority : pyval;
  b_created_at : string;
  b_updated_at : string;
  b_requester_id : pyval;
  b_assignee_id : pyval;
  b_organization_id : pyval
}.

(** The dict [create_ticket] and [update_ticket] return. *)
Record TicketDetail := mkTicketDetail {
  d_id : pyval;
  d_subject : pyval;
  d_description : pyval;
  d_status : pyval;
  d_priority : pyval;
  d_type : pyval;
  d_created_at : string;
  d_updated_at : string;
  d_requester_id : pyval;
  d_assignee_id : pyval;
  d_organization_id : pyval;
  d_tags : list pyval
}.

(** One entry of the list [get_ticket_comments] returns. *)
Record CommentDict := mkCommentDict {
  c_id : pyval;
  c_author_id : pyval;
  c_body : pyval;
  c_html_body : pyval;
  c_public : pyval;
  c_created_at : string
}.

(** The dict literal of [get_ticket]. *)
Definition basic_of (w : World) (ticket : pyval) : error + TicketBasic :=
  ebind (attr ticket "id") (fun id =>
  ebind (attr ticket "subject") (fun subject =>
  ebind (attr ticket "description") (fun description =>
  ebind (attr ticket "status") (fun status =>
  ebind (attr ticket "priority") (fun priority =>
  ebind (attr ticket "created_at") (fun created_at =>
  ebind (attr ticket "updated_at") (fun updated_at =>
  ebind (attr ticket "requester_id") (fun requester_id =>
  ebind (attr ticket "assignee_id") (fun assignee_id =>
  ebind (attr ticket "organization_id") (fun organization_id =>
  inr (mkTicketBasic id subject description status priority
         (py_str w created_at) (py_str w updated_at)
         requester_id assignee_id organization_id))))))))))).

(** [ZendeskClient.get_ticket] *)
Definition get_ticket (ticket_id : Z) : World -> (failure + TicketBasic) * World :=
  guarded ("Failed to get ticket " ++ PyStr.str_of_int ticket_id)
    (bind (tickets (VInt ticket_id)) (fun ticket =>
     fun w => (basic_of w ticket, w))).

(** One dict of the comprehension of [get_ticket_comments]. *)
Definition comment_of (w : World) (comment : pyval) : error + CommentDict :=
  ebind (attr comment "id") (fun id =>
  ebind (attr comment "author_id") (fun author_id =>
  ebind (attr comment "body") (fun body =>
  ebind (attr comment "html_body") (fun html_body =>
  ebind (attr comment "public") (fun public =>
  ebind (attr comment "created_at") (fun created_at =>
  inr (mkCommentDict id author_id body html_body public
         (py_str w created_at)))))))).

(** A list comprehension whose element expression can raise. *)
Fixpoint comprehend {A B} (f : A -> error + B) (l : list A) : error + list B :=
  match l with
  | [] => inr []
  | x :: rest =>
      ebind (f x) (fun y => ebind (comprehend f rest) (fun ys => inr (y :: ys)))
  end.

(** [ZendeskClient.get_ticket_comments] *)
Definition get_ticket_comments (ticket_id : Z)
  : World -> (failure + list CommentDict) * World :=
  guarded ("Failed to get comments for ticket " ++ PyStr.str_of_int ticket_id)
    (bind (comments_of (VInt ticket_id)) (fun comments =>
     fun w => (comprehend (comment_of w) comments, w))).

(** [Comment(html_body=comment, public=public)] *)
Definition new_comment (comment : string) (public : bool) : pyval :=
  VObj [("html_body", VStr comment); ("public", VBool public)].

(** [ZendeskClient.post_comment] *)
Definition post_comment (ticket_id : Z) (comment : string) (public : bool)
  : World -> (failure + string) * World :=
  guarded ("Failed to post comment on ticket " ++ PyStr.str_of_int ticket_id)
    (bind (tickets (VInt ticket_id)) (fun ticket =>
     bind (lift (setattr ticket "comment" (new_comment comment public)))
       (fun ticket =>
     bind (update ticket) (fun _ =>
     ret comment)))).

(** One dict of the ["articles"] comprehension. *)
Record ArticleDict := mkArticleDict {
  a_id : pyval;
  a_title : pyval;
  a_body : pyval;
  a_updated_at : string;
  a_url : pyval
}.

(** The value stored under a section name. *)
Record SectionDict := mkSectionDict {
  s_section_id : pyval;
  s_description : pyval;
  s_articles : list ArticleDict
}.

Definition okey_eqb (x y : option string) : bool :=
  match x, y with
  | None, None => true
  | Some a, Some b => String.eqb a b
  | _, _ => false
  end.

(** [kb[key] = value] on a dict kept in insertion order. *)
Fixpoint dict_set {V} (key : option string) (value : V)
    (kb : list (option string * V)) : list (option string * V) :=
  match kb with
  | [] => [(key, value)]
  | (k, v) :: rest =>
      if okey_eqb k key then (k, value) :: rest
      else (k, v) :: dict_set key value rest
  end.

Fixpoint dict_get {V} (key : option string) (kb : list (option string * V))
  : option V :=
  match kb with
  | [] => None
  | (k, v) :: rest => if okey_eqb k key then Some v else dict_get key rest
  end.

Definition article_dict (w : World) (article : Article) : ArticleDict :=
  mkArticleDict (article_id article) (article_title article)
    (article_body article) (py_str w (article_updated_at article))
    (article_html_url article).

(** The loop over [sections] of [get_all_articles]. *)
Fixpoint kb_loop (todo : list Section) (kb : list (option string * SectionDict))
  : M (list (option string * SectionDict)) :=
  match todo with
  | [] => ret kb
  | section :: rest =>
      bind (articles_of (section_id section)) (fun articles =>
      fun w =>
        kb_loop rest
          (dict_set (section_name section)
             (mkSectionDict (section_id section) (section_description section)
                (map (article_dict w) articles))
             kb) w)
  end.

(** [ZendeskClient.get_all_articles] *)
Definition get_all_articles
  : World -> (failure + list (option string * SectionDict)) * World :=
  guarded "Failed to fetch knowledge base"
    (bind sections (fun todo => kb_loop todo [])).

(** The dict literal of [update_ticket]. *)
Definition detail_of (w : World) (refreshed : pyval) : error + TicketDetail :=
  ebind (attr refreshed "id") (fun id =>
  ebind (attr refreshed "subject") (fun subject =>
  ebind (attr refreshed "description") (fun description =>
  ebind (attr refreshed "status") (fun status =>
  ebind (attr refreshed "priority") (fun priority =>
  let type := getattr refreshed "type" VNone in
  ebind (attr refreshed "created_at") (fun created_at =>
  ebind (attr refreshed "updated_at") (fun updated_at =>
  ebind (attr refreshed "requester_id") (fun requester_id =>
  ebind (attr refreshed "assignee_id") (fun assignee_id =>
  ebind (attr refreshed "organization_id") (fun organization_id =>
  ebind (to_list (or_else (getattr refreshed "tags" (VList [])) (VList [])))
    (fun tags =>
  inr (mkTicketDetail id subject description status priority type
         (py_str w created_at) (py_str w updated_at)
         requester_id assignee_id organization_id tags)))))))))))).

(** The loop over [fields.items()] of [update_ticket]. *)
Fixpoint apply_fields (fields : list (string * pyval)) (ticket : pyval)
  : error + pyval :=
  match fields with
  | [] => inr ticket
  | (key, value) :: rest =>
      if is_none value then apply_fields rest ticket
      else ebind (setattr ticket key value) (apply_fields rest)
  end.

(** [ZendeskClient.update_ticket]; [fields] is the keyword dict, in the
    order of the call. *)
Definition update_ticket (ticket_id : Z) (fields : list (string * pyval))
  : World -> (failure + TicketDetail) * World :=
  guarded ("Failed to update ticket " ++ PyStr.str_of_int ticket_id)
    (bind (tickets (VInt ticket_id)) (fun ticket =>
     bind (lift (apply_fields fields ticket)) (fun ticket =>
     bind (update ticket) (fun _ =>
     bind (tickets (VInt ticket_id)) (fun refreshed =>
     fun w => (detail_of w refreshed, w)))))).

(** The dict literal of [create_ticket]. *)
Definition created_dict (w : World) (t : NewTicket) (created created_ticket_id : pyval)
  : error + TicketDetail :=
  ebind (to_list (or_else
                    (getattr created "tags"
                       (or_else (of_strs (new_tags t)) (VList [])))
                    (VList [])))
    (fun tags =>
  inr (mkTicketDetail
         (getattr created "id" created_ticket_id)
         (getattr created "subject" (VStr (new_subject t)))
         (getattr created "description" (VStr (new_description t)))
         (getattr created "status" (VStr "new"))
         (getattr created "priority" (of_str (new_priority t)))
         (getattr created "type" (of_str (new_type t)))
         (py_str w (getattr created "created_at" (VStr EmptyString)))
         (py_str w (getattr created "updated_at" (VStr EmptyString)))
         (getattr created "requester_id" (of_int (new_requester_id t)))
         (getattr created "assignee_id" (of_int (new_assignee_id t)))
         (getattr created "organization_id" VNone)
         tags)).

(** The id read from the audit: [audit.ticket.id], else [audit.id]. *)
Definition audit_ticket_id (created_audit : pyval) : pyval :=
  let created_ticket_id :=
    getattr (getattr created_audit "ticket" VNone) "id" VNone in
  if is_none created_ticket_id then getattr created_audit "id" VNone
  else created_ticket_id.

(** [ZendeskClient.create_ticket] *)
Definition create_ticket (t : NewTicket)
  : World -> (failure + TicketDetail) * World :=
  guarded "Failed to create ticket"
    (bind (create t) (fun created_audit =>
     let created_ticket_id := audit_ticket_id created_audit in
     bind (if truthy created_ticket_id then tickets created_ticket_id
           else ret VNone) (fun created =>
     fun w => (created_dict w t created created_ticket_id, w)))).

End Sdk.

(** ** A sample SDK *)

Module SdkSample.
Import Sdk.

Definition ticket : pyval :=
  VObj [("id", VInt 17); ("subject", VStr "printer");
        ("description", VStr "It is broken"); ("status", VStr "open");
        ("priority", VStr "high"); ("created_at", VStr "2026-02-26 10:00:00");
        ("updated_at", VStr "2026-02-26 10:00:00"); ("requester_id", VInt 5);
        ("assignee_id", VNone); ("organization_id", VNone);
        ("tags", VList [VStr "hardware"])].

(** The ticket as the last update in [hist] left it. *)
Fixpoint last_update (hist : list call) (base : pyval) : pyval :=
  match hist with
  | [] => base
  | TicketsUpdate t :: rest => last_update rest t
  | _ :: rest => last_update rest base
  end.

Definition comment (n : Z) : pyval :=
  VObj [("id", VInt n); ("author_id", VInt 5); ("body", VStr "hello");
        ("html_body", VStr "<p>hello</p>"); ("public", VBool true);
        ("created_at", VStr "2026-02-26 10:00:00")].

Definition section (n : Z) (name : string) : Section :=
  mkSection (VInt n) (Some name) VNone.

Definition article (n : Z) : Article :=
  mkArticle (VInt n) (VStr "How to") (VStr "Read this")
    (VStr "2026-02-26 10:00:00") (VStr "https://acme.zendesk.com/hc/1").

(** An SDK whose tickets keep what was last updated, whose creations get
    the id [audit_id] inside the audit's ticket, and whose help center has
    three sections, two of them called [FAQ]. *)
Definition sdk (audit : pyval) : Zenpy :=
  mkZenpy
    (fun hist _ => inr (last_update hist ticket))
    (fun _ _ => inr [comment 1; comment 2])
    (fun _ t => inr (VObj [("ticket", t)]))
    (fun _ _ => inr audit)
    (fun _ => inr [section 1 "FAQ"; section 2 "Guides"; section 3 "FAQ"])
    (fun _ id => inr [article 10]).

Definition audit_with_ticket : pyval :=
  VObj [("ticket", VObj [("id", VInt 17)]); ("id", VInt 900)].

Definition audit_without_id : pyval := VObj [("events", VList [])].

Definition world (audit : pyval) : World :=
  mkWorld (sdk audit) (fun _ => "<object>") [].

(** An SDK that fails every call with [e]. *)
Definition failing (e : error) : World :=
  mkWorld
    (mkZenpy (fun _ _ => inl e) (fun _ _ => inl e) (fun _ _ => inl e)
       (fun _ _ => inl e) (fun _ => inl e) (fun _ _ => inl e))
    (fun _ => "<object>") [].

Definition new_ticket : NewTicket :=
  mkNewTicket "printer" "It is broken" (Some 5) None (Some "high") None
    (Some ["hardware"]) None.


End SdkSample.

(** ** Descriptions used in the statements about the SDK *)

(** The attributes after the loop of [update_ticket] on an object. *)
Definition set_fields (fields : list (string * Sdk.pyval))
    (attrs : list (string * Sdk.pyval)) : list (string * Sdk.pyval) :=
  fold_left
    (fun acc kv =>
       if Sdk.is_none (snd kv) then acc else Sdk.store (fst kv) (snd kv) acc)
    fields attrs.

(** The last section of [todo] that is called [name]. *)
Fixpoint last_named (name : option string) (todo : list Sdk.Section)
  : option Sdk.Section :=
  match todo with
  | [] => None
  | sec :: rest =>
      match last_named name rest with
      | Some s => Some s
      | None =>
          if Sdk.okey_eqb (Sdk.section_name sec) name then Some sec else None
      end
  end.

(** The part of the dict of [update_ticket] that [get_ticket] has too. *)
Definition basic_part (d : Sdk.TicketDetail) : Sdk.TicketBasic :=
  Sdk.mkTicketBasic (Sdk.d_id d) (Sdk.d_subject d) (Sdk.d_description d)
    (Sdk.d_status d) (Sdk.d_priority d) (Sdk.d_created_at d)
    (Sdk.d_updated_at d) (Sdk.d_requester_id d) (Sdk.d_assignee_id d)
    (Sdk.d_organization_id d).

(** * Properties *)

(** ** Sample evaluations *)

Example str_of_int_samples :
  PyStr.str_of_int 0 = "0" /\ PyStr.str_of_int 100 = "100" /\
  PyStr.str_of_int (-25) = "-25" /\ PyStr.str_of_int 1234567890 = "1234567890".
Proof. repeat split; reflexivity. Qed.

Example strip_samples :
  PyStr.strip "  Jane Doe " = "Jane Doe" /\ PyStr.strip "   " = EmptyString /\
  PyStr.strip " 12345" = "12345".
Proof. repeat split; reflexivity. Qed.

Example isdigit_samples :
  PyStr.isdigit "12345" = true /\ PyStr.isdigit EmptyString = false /\
  PyStr.isdigit "Jane Doe" = false /\ PyStr.isdigit "12a" = false.
Proof. repeat split; reflexivity. Qed.

Example replace_samples :
  PyStr.replace "+00:00" "Z" "2026-02-26T10:00:00+00:00" = "2026-02-26T10:00:00Z" /\
  PyStr.replace "ab" "c" "abab-aab" = "cc-ac".
Proof. repeat split; reflexivity. Qed.

Example join_samples :
  PyStr.join " " ["type:ticket"; "status<solved"] = "type:ticket status<solved" /\
  PyStr.join " " [] = EmptyString.
Proof. repeat split; reflexivity. Qed.

Example isoformat_samples :
  PyTime.isoformat (PyTime.mk 2026 2 26 10 0 0 0) = "2026-02-26T10:00:00+00:00" /\
  PyTime.isoformat (PyTime.mk 2026 2 26 10 0 0 5) = "2026-02-26T10:00:00.000005+00:00" /\
  PyTime.isoformat 0 = "0001-01-01T00:00:00+00:00" /\
  PyTime.isoformat (PyTime.max_ordinal * PyTime.us_per_day - 1)
    = "9999-12-31T23:59:59.999999+00:00" /\
  PyTime.isoformat (PyTime.mk 2024 2 29 23 59 59 0) = "2024-02-29T23:59:59+00:00" /\
  PyTime.isoformat (PyTime.mk 1900 3 1 0 0 0 0) = "1900-03-01T00:00:00+00:00".
Proof. repeat split; vm_compute; reflexivity. Qed.

Example hours_before_samples :
  PyTime.hours_before (PyTime.mk 2026 2 26 10 0 0 0) 6 = inr (PyTime.mk 2026 2 26 4 0 0 0) /\
  PyTime.hours_before (PyTime.mk 2026 3 1 1 0 0 0) 24 = inr (PyTime.mk 2026 2 28 1 0 0 0) /\
  PyTime.utc_z (PyTime.mk 2026 2 26 4 0 0 0) = "2026-02-26T04:00:00Z" /\
  PyTime.hours_before (PyTime.mk 2026 2 26 10 0 0 0) 100000000
    = inl PyTime.OverflowError /\
  PyTime.mk 1 1 1 0 0 0 0 = 0 /\ PyTime.days_of_civil 2026 2 26 = 739672.
Proof. repeat split; vm_compute; reflexivity. Qed.

Example get_tickets_sample_run :
  let run := get_tickets sample_client args_window (sample_world sample_results) in
  option_map (param "query") (hd_error (sent (snd run)))
  = Some (Some ("type:ticket assignee:" ++ dquote ++ "Jane Doe" ++ dquote
                ++ " status<solved updated<2026-02-25T10:00:00Z"
                ++ " updated>2026-02-26T04:00:00.000001Z"))
  /\ ticks (snd run) = 2%nat
  /\ match fst run with
     | inr r =>
         TicketPage.count r = 2 /\ TicketPage.page r = 2
         /\ TicketPage.per_page r = 25 /\ TicketPage.has_more r = true
         /\ TicketPage.next_page r = Some 3
         /\ TicketPage.previous_page r = Some 1
     | inl _ => False
     end.
Proof. vm_compute. repeat split; reflexivity. Qed.

Example get_tickets_overflow_run :
  let a := Args.mk 1 25 "created_at" "desc" None None None (Some 100000000)
             None false in
  let run := get_tickets sample_client a (sample_world sample_results) in
  fst run = inl (Failed (TimeError PyTime.OverflowError))
  /\ sent (snd run) = [].
Proof. vm_compute. split; reflexivity. Qed.

(** ** Strings *)

Section StringFacts.

Lemma all_chars_app (p : ascii -> bool) (s t : string) :
  PyStr.all_chars p (s ++ t) = PyStr.all_chars p s && PyStr.all_chars p t.
Proof.
  induction s as [|c s IH]; simpl.
  - reflexivity.
  - rewrite IH. apply andb_assoc.
Qed.

Lemma lstrip_nonspace (s : string) :
  PyStr.all_chars (fun c => negb (PyStr.isspace_char c)) s = true ->
  PyStr.lstrip s = s.
Proof.
  destruct s as [|c s]; simpl; [reflexivity|].
  intros H. apply andb_prop in H as [Hc _].
  apply negb_true_iff in Hc. now rewrite Hc.
Qed.

Lemma rstrip_nonspace (s : string) :
  PyStr.all_chars (fun c => negb (PyStr.isspace_char c)) s = true ->
  PyStr.rstrip s = s.
Proof.
  induction s as [|c s IH]; simpl; [reflexivity|].
  intros H. apply andb_prop in H as [Hc Hs].
  apply negb_true_iff in Hc. rewrite (IH Hs), Hc.
  now destruct s.
Qed.

(** Stripping a string without white space returns it. *)
Lemma strip_nonspace (s : string) :
  PyStr.all_chars (fun c => negb (PyStr.isspace_char c)) s = true ->
  PyStr.strip s = s.
Proof.
  intros H. unfold PyStr.strip. rewrite (lstrip_nonspace s H).
  now apply rstrip_nonspace.
Qed.

Lemma digit_char_stamp (d : Z) : stamp_char (PyStr.digit_char d) = true.
Proof.
  unfold PyStr.digit_char.
  assert (H : (Z.to_nat (d mod 10) < 10)%nat)
    by (pose proof (Z.mod_pos_bound d 10 ltac:(lia)); lia).
  revert H. generalize (Z.to_nat (d mod 10)) as k. intros k H.
  do 10 (destruct k as [|k]; [reflexivity|]). lia.
Qed.

Lemma zero_padded_stamp (w : nat) (n : Z) :
  PyStr.all_chars stamp_char (PyStr.zero_padded w n) = true.
Proof.
  revert n. induction w as [|w IH]; intros n; cbn [PyStr.zero_padded].
  - reflexivity.
  - rewrite all_chars_app, IH. cbn [PyStr.all_chars andb].
    now rewrite digit_char_stamp.
Qed.

Lemma iso_body_stamp (d : PyTime.datetime) :
  PyStr.all_chars stamp_char (PyTime.iso_body d) = true.
Proof.
  unfold PyTime.iso_body.
  destruct (PyTime.civil_of_days (d / PyTime.us_per_day)) as [[y m] dd].
  repeat rewrite all_chars_app. repeat rewrite zero_padded_stamp.
  cbn [PyStr.all_chars andb].
  destruct (_ =? 0); cbn [PyStr.all_chars andb]; [reflexivity|].
  rewrite all_chars_app, zero_padded_stamp. reflexivity.
Qed.

Lemma replace_offset (body : string) :
  PyStr.all_chars stamp_char body = true ->
  PyStr.replace "+00:00" "Z" (body ++ "+00:00") = body ++ "Z".
Proof.
  unfold PyStr.replace. induction body as [|c body IH]; intros H.
  - reflexivity.
  - simpl in H. apply andb_prop in H as [Hc Hb].
    unfold stamp_char in Hc. apply andb_prop in Hc as [Hplus _].
    apply negb_true_iff in Hplus.
    change ((String c body ++ "+00:00")%string)
      with (String c (body ++ "+00:00")).
    cbn [PyStr.replace_from]. unfold prefix.
    destruct (ascii_dec "+" c) as [E|_].
    + subst c. discriminate Hplus.
    + change ((String c body ++ "Z")%string) with (String c (body ++ "Z")).
      f_equal. now apply IH.
Qed.

(** The stamp is the ISO-8601 text of the date and time followed by [Z]. *)
Lemma utc_z_shape (d : PyTime.datetime) :
  PyTime.utc_z d = PyTime.iso_body d ++ "Z".
Proof.
  unfold PyTime.utc_z, PyTime.isoformat. apply replace_offset, iso_body_stamp.
Qed.

Lemma stamp_nonspace (s : string) :
  PyStr.all_chars stamp_char s = true ->
  PyStr.all_chars (fun c => negb (PyStr.isspace_char c)) s = true.
Proof.
  induction s as [|c s IH]; simpl; [reflexivity|].
  intros H. apply andb_prop in H as [Hc Hs].
  unfold stamp_char in Hc. apply andb_prop in Hc as [_ Hc].
  now rewrite Hc, IH.
Qed.

Lemma strip_utc_z (d : PyTime.datetime) : PyStr.strip (PyTime.utc_z d) = PyTime.utc_z d.
Proof.
  apply strip_nonspace. rewrite utc_z_shape, all_chars_app.
  rewrite (stamp_nonspace _ (iso_body_stamp d)). reflexivity.
Qed.

Lemma truthy_utc_z (d : PyTime.datetime) : PyStr.truthy (PyTime.utc_z d) = true.
Proof.
  rewrite utc_z_shape. now destruct (PyTime.iso_body d).
Qed.

End StringFacts.

(** ** Runs of the method *)

Section Runs.

Variable self : Client.

Ltac reduce_run :=
  cbv beta iota zeta delta
    [build_query stamp_hours_ago bind now_utc lift_time lift_json ret raise
     urlopen_json search_path listing_path guarded get_tickets
     query_tokens agent_tokens organization_tokens status_tokens before_tokens
     since_tokens stamp_opt last_tick final_since
     Args.page Args.per_page Args.sort_by Args.sort_order Args.agent
     Args.organization Args.updated_since Args.last_hours Args.stale_hours
     Args.include_solved
     is_some list_append app negb andb fst snd clock ticks vendor sent].

Ltac split_on f :=
  repeat match goal with
         | |- context [f ?x ?y] => destruct (f x y) eqn:?; reduce_run
         | |- context [f ?x] => destruct (f x) eqn:?; reduce_run
         end.

(** The query that [build_query] returns, and what it leaves unchanged. *)
Lemma build_query_run (a : Args.t) (w : World) :
  exists w1,
    build_query a w =
      (match stamp_opt (clock w (ticks w)) (Args.stale_hours a) with
       | inl e => inl (TimeError e)
       | inr ub =>
           match stamp_opt (clock w (last_tick a w)) (Args.last_hours a) with
           | inl e => inl (TimeError e)
           | inr ls =>
               inr (query_tokens a ub (final_since a ls), final_since a ls)
           end
       end, w1)
    /\ clock w1 = clock w /\ vendor w1 = vendor w /\ sent w1 = sent w.
Proof.
  destruct a as [pg pp sb so ag org us lh sh inc], w as [ck tk vd st].
  destruct sh as [sh|], lh as [lh|]; reduce_run;
    split_on PyTime.hours_before;
    try (eexists; split; [reflexivity | repeat split; reflexivity]);
    destruct ag as [ag|], org as [org|], us as [us|], inc; reduce_run;
    split_on PyStr.truthy; split_on PyStr.isdigit;
    eexists; (split; [reflexivity | repeat split; reflexivity]).
Qed.

Lemma skipn_length_app {A} (l l' : list A) :
  skipn (List.length l) (l ++ l')%list = l'.
Proof. induction l as [|x l IH]; simpl; [reflexivity | exact IH]. Qed.

Lemma skipn_length_self {A} (l : list A) : skipn (List.length l) l = [].
Proof. induction l as [|x l IH]; simpl; [reflexivity | exact IH]. Qed.

(** A call on the search path whose query is built sends one request. *)
Lemma get_tickets_search (a : Args.t) (w w1 : World) parts us :
  has_filters a = true ->
  build_query a w = (inr (parts, us), w1) ->
  vendor w1 = vendor w -> sent w1 = sent w ->
  fst (get_tickets self a w)
    = finish (answer w (search_request self a parts) (search_page a us))
  /\ requests_of self a w = [search_request self a parts].
Proof.
  intros Hf Hb Hv Hs.
  unfold requests_of, get_tickets, guarded. rewrite Hf.
  unfold search_path, bind. rewrite Hb.
  cbv beta iota zeta delta [fst snd urlopen_json lift_json answer finish].
  rewrite Hv, Hs.
  destruct (vendor w (search_request self a parts)) as [e|data];
    [| destruct (search_page a us data) as [e|r]];
    cbv beta iota zeta delta [fst snd sent ret raise list_append];
    (split; [reflexivity | apply skipn_length_app]).
Qed.

(** A call on the search path whose dates overflow sends nothing. *)
Lemma get_tickets_search_overflow (a : Args.t) (w w1 : World) e :
  has_filters a = true ->
  build_query a w = (inl e, w1) ->
  sent w1 = sent w ->
  fst (get_tickets self a w) = inl (wrap_failure e)
  /\ requests_of self a w = [].
Proof.
  intros Hf Hb Hs.
  unfold requests_of, get_tickets, guarded. rewrite Hf.
  unfold search_path, bind. rewrite Hb.
  cbv beta iota zeta delta [fst snd]. rewrite Hs.
  split; [reflexivity | apply skipn_length_self].
Qed.

(** A call without filters sends the listing request. *)
Lemma get_tickets_listing (a : Args.t) (w : World) :
  has_filters a = false ->
  fst (get_tickets self a w)
    = finish (answer w (listing_request self a) (listing_page a))
  /\ requests_of self a w = [listing_request self a].
Proof.
  intros Hf.
  unfold requests_of, get_tickets, guarded. rewrite Hf.
  unfold listing_path, bind.
  cbv beta iota zeta delta [fst snd urlopen_json lift_json answer finish].
  destruct (vendor w (listing_request self a)) as [e|data];
    [| destruct (listing_page a data) as [e|r]];
    cbv beta iota zeta delta [fst snd sent ret raise list_append];
    (split; [reflexivity | apply skipn_length_app]).
Qed.

(** The three ways a call can go. *)
Lemma get_tickets_cases (a : Args.t) (w : World) :
  (has_filters a = false
   /\ fst (get_tickets self a w)
       = finish (answer w (listing_request self a) (listing_page a))
   /\ requests_of self a w = [listing_request self a])
  \/ (has_filters a = true
      /\ (stamp_opt (clock w (ticks w)) (Args.stale_hours a)
            = inl PyTime.OverflowError
          \/ stamp_opt (clock w (last_tick a w)) (Args.last_hours a)
             = inl PyTime.OverflowError)
      /\ fst (get_tickets self a w) = inl (Failed (TimeError PyTime.OverflowError))
      /\ requests_of self a w = [])
  \/ (has_filters a = true
      /\ exists ub ls,
          stamp_opt (clock w (ticks w)) (Args.stale_hours a) = inr ub
          /\ stamp_opt (clock w (last_tick a w)) (Args.last_hours a) = inr ls
          /\ fst (get_tickets self a w)
              = finish (answer w
                          (search_request self a
                             (query_tokens a ub (final_since a ls)))
                          (search_page a (final_since a ls)))
          /\ requests_of self a w
              = [search_request self a (query_tokens a ub (final_since a ls))]).
Proof.
  destruct (has_filters a) eqn:Hf.
  - right. destruct (build_query_run a w) as (w1 & Hb & _ & Hv & Hs).
    destruct (stamp_opt (clock w (ticks w)) (Args.stale_hours a))
      as [[]|ub] eqn:E1.
    { left. split; [reflexivity|]. split; [now left|].
      exact (get_tickets_search_overflow a w w1 _ Hf Hb Hs). }
    destruct (stamp_opt (clock w (last_tick a w)) (Args.last_hours a))
      as [[]|ls] eqn:E2.
    { left. split; [reflexivity|]. split; [now right|].
      exact (get_tickets_search_overflow a w w1 _ Hf Hb Hs). }
    right. split; [reflexivity|]. exists ub, ls.
    split; [reflexivity|]. split; [reflexivity|].
    exact (get_tickets_search a w w1 _ _ Hf Hb Hv Hs).
  - left. split; [reflexivity|]. now apply get_tickets_listing.
Qed.

End Runs.

(** ** The filter test *)

Lemma opt_truthy_nonempty (o : option string) :
  PyStr.opt_truthy o = true <-> nonempty o.
Proof.
  unfold nonempty. destruct o as [[|c s]|]; simpl; split.
  - discriminate.
  - intros (s & E & N). injection E as <-. now contradiction N.
  - intros _. eexists. split; [reflexivity | discriminate].
  - reflexivity.
  - discriminate.
  - intros (s & E & _). discriminate E.
Qed.

Lemma is_some_given {A} (o : option A) : is_some o = true <-> o <> None.
Proof. destruct o; simpl; split; congruence. Qed.

(** The test of the method holds exactly when a filter is given. *)
Lemma has_filters_given (a : Args.t) : has_filters a = true <-> filter_given a.
Proof.
  unfold has_filters, filter_given.
  rewrite !orb_true_iff, !opt_truthy_nonempty, !is_some_given. tauto.
Qed.

(** ** The two loops *)

Lemma ticket_of_dict (f : list (string * json)) :
  ticket_of (JObj f) = inr (summary (JObj f)).
Proof. reflexivity. Qed.

Lemma result_type_dict (f : list (string * json)) :
  PyJson.get (JObj f) "result_type" = inr (field (JObj f) "result_type").
Proof. reflexivity. Qed.

Lemma search_loop_eq (items : list json) (acc : list Ticket.t) :
  search_loop items acc
  = if forallb is_dict items
    then inr (acc ++ map summary (filter (fun i => negb (other_kind i)) items))%list
    else inl PyJson.AttributeError.
Proof.
  revert acc. induction items as [|item items IH]; intros acc.
  - simpl. now rewrite app_nil_r.
  - destruct item as [| | | | |f]; try reflexivity.
    cbn [search_loop forallb is_dict andb filter].
    rewrite result_type_dict. cbn [ebind].
    change (not_none_or_ticket (field (JObj f) "result_type"))
      with (other_kind (JObj f)).
    destruct (other_kind (JObj f)); cbn [negb].
    + apply IH.
    + rewrite ticket_of_dict. cbn [ebind]. rewrite IH. unfold list_append.
      destruct (forallb is_dict items); [|reflexivity].
      cbn [map]. now rewrite <- app_assoc.
Qed.

Lemma listing_loop_eq (items : list json) (acc : list Ticket.t) :
  listing_loop items acc
  = if forallb is_dict items
    then inr (acc ++ map summary items)%list
    else inl PyJson.AttributeError.
Proof.
  revert acc. induction items as [|item items IH]; intros acc.
  - simpl. now rewrite app_nil_r.
  - destruct item as [| | | | |f]; try reflexivity.
    cbn [listing_loop forallb is_dict andb].
    rewrite ticket_of_dict. cbn [ebind]. rewrite IH. unfold list_append.
    destruct (forallb is_dict items); [|reflexivity].
    cbn [map]. now rewrite <- app_assoc.
Qed.

(** ** The returned page *)

(** What a page returned by the search path is made of. *)
Lemma search_page_inv (a : Args.t) (us : option string) (data : json)
    (r : TicketPage.t) :
  search_page a us data = inr r ->
  exists results items next,
    PyJson.get_default data "results" (JArr []) = inr results
    /\ PyJson.iterate results = inr items
    /\ forallb is_dict items = true
    /\ PyJson.get data "next_page" = inr next
    /\ r = TicketPage.mk
             (map summary (filter (fun i => negb (other_kind i)) items))
             (Args.page a) (capped_per_page a)
             (Z.of_nat (List.length
                (map summary (filter (fun i => negb (other_kind i)) items))))
             (Args.sort_by a) (Args.sort_order a)
             (Some (Filters.mk (Args.agent a) (Args.organization a) us
                      (Args.last_hours a) (Args.stale_hours a)
                      (Args.include_solved a)))
             (PyJson.is_not_none next)
             (if PyJson.truthy next then Some (Args.page a + 1) else None)
             (if 1 <? Args.page a then Some (Args.page a - 1) else None).
Proof.
  unfold search_page.
  destruct data as [| | | | |f]; try discriminate.
  cbn [PyJson.get_default PyJson.get ebind].
  destruct (PyJson.iterate _) as [e|items] eqn:Hit; [discriminate|].
  cbn [ebind]. rewrite search_loop_eq.
  destruct (forallb is_dict items) eqn:Hd; [|discriminate].
  cbn [ebind app]. intros H. injection H as <-.
  eexists _, items, _. repeat split; try reflexivity; assumption.
Qed.

(** What a page returned by the direct listing is made of. *)
Lemma listing_page_inv (a : Args.t) (data : json) (r : TicketPage.t) :
  listing_page a data = inr r ->
  exists tickets_data items next previous,
    PyJson.get_default data "tickets" (JArr []) = inr tickets_data
    /\ PyJson.iterate tickets_data = inr items
    /\ forallb is_dict items = true
    /\ PyJson.get data "next_page" = inr next
    /\ PyJson.get data "previous_page" = inr previous
    /\ r = TicketPage.mk (map summary items)
             (Args.page a) (capped_per_page a)
             (Z.of_nat (List.length (map summary items)))
             (Args.sort_by a) (Args.sort_order a)
             None
             (PyJson.is_not_none next)
             (if PyJson.truthy next then Some (Args.page a + 1) else None)
             (if PyJson.truthy previous && (1 <? Args.page a)
              then Some (Args.page a - 1) else None).
Proof.
  unfold listing_page.
  destruct data as [| | | | |f]; try discriminate.
  cbn [PyJson.get_default PyJson.get ebind].
  destruct (PyJson.iterate _) as [e|items] eqn:Hit; [discriminate|].
  cbn [ebind]. rewrite listing_loop_eq.
  destruct (forallb is_dict items) eqn:Hd; [|discriminate].
  cbn [ebind app]. intros H. injection H as <-.
  eexists _, items, _, _. repeat split; try reflexivity; assumption.
Qed.

(** A returned page comes from a document the vendor sent. *)
Lemma answer_inv (w : World) (req : Request)
    (page_of : json -> PyJson.error + TicketPage.t) (r : TicketPage.t) :
  finish (answer w req page_of) = inr r ->
  exists data, vendor w req = inr data /\ page_of data = inr r.
Proof.
  unfold finish, answer.
  destruct (vendor w req) as [e|data]; [discriminate|].
  destruct (page_of data) as [e|p] eqn:Hp; [discriminate|].
  intros H. injection H as <-. now exists data.
Qed.

(** A returned page, by path. *)
Lemma get_tickets_returned (self : Client) (a : Args.t) (w : World)
    (r : TicketPage.t) :
  fst (get_tickets self a w) = inr r ->
  (has_filters a = false
   /\ requests_of self a w = [listing_request self a]
   /\ exists data,
        vendor w (listing_request self a) = inr data
        /\ listing_page a data = inr r)
  \/ (has_filters a = true
      /\ exists ub ls data,
          stamp_opt (clock w (ticks w)) (Args.stale_hours a) = inr ub
          /\ stamp_opt (clock w (last_tick a w)) (Args.last_hours a) = inr ls
          /\ requests_of self a w
             = [search_request self a (query_tokens a ub (final_since a ls))]
          /\ vendor w (search_request self a
                         (query_tokens a ub (final_since a ls))) = inr data
          /\ search_page a (final_since a ls) data = inr r).
Proof.
  intros Hr.
  destruct (get_tickets_cases self a w)
    as [(Hf & Hrun & Hreq) | [(Hf & _ & Hrun & _) | (Hf & ub & ls & E1 & E2 & Hrun & Hreq)]].
  - left. split; [assumption|]. split; [assumption|].
    rewrite Hrun in Hr. now apply answer_inv in Hr.
  - rewrite Hrun in Hr. discriminate Hr.
  - right. split; [assumption|].
    rewrite Hrun in Hr. apply answer_inv in Hr as (data & Hv & Hp).
    now exists ub, ls, data.
Qed.

(** ** Choice of the path *)

(** C1, as stated, fails: an [agent] that is supplied as the empty string
    is not a filter for the method, which lists directly and returns no
    ["filters"] entry. *)
Lemma empty_agent_lists_directly :
  Args.agent args_empty_agent <> None
  /\ requests_of sample_client args_empty_agent (sample_world sample_listing)
     = [listing_request sample_client args_empty_agent]
  /\ exists r,
       fst (get_tickets sample_client args_empty_agent
              (sample_world sample_listing)) = inr r
       /\ TicketPage.filters r = None.
Proof.
  split; [discriminate|]. split; [vm_compute; reflexivity|].
  eexists. split; [vm_compute; reflexivity | reflexivity].
Qed.

(** C1, amended: when [agent], [organization] or [updated_since] holds a
    string that is not empty, or [last_hours] or [stale_hours] is supplied,
    the method runs the search path, every request it sends goes to the
    search endpoint and a returned page has a ["filters"] entry; otherwise it
    runs the direct listing, sends the listing request and a returned page
    has no ["filters"] entry. *)
Theorem filters_select_the_path (self : Client) (a : Args.t) (w : World) :
  (filter_given a ->
     get_tickets self a = guarded (search_path self a)
     /\ (forall req, In req (requests_of self a w) -> req_endpoint req = SearchJson)
     /\ (forall r, fst (get_tickets self a w) = inr r ->
           exists f, TicketPage.filters r = Some f))
  /\ (~ filter_given a ->
        get_tickets self a = guarded (listing_path self a)
        /\ requests_of self a w = [listing_request self a]
        /\ (forall r, fst (get_tickets self a w) = inr r ->
              TicketPage.filters r = None)).
Proof.
  split; intros Hg.
  - apply has_filters_given in Hg.
    split; [unfold get_tickets; now rewrite Hg|]. split.
    + intros req Hin.
      destruct (get_tickets_cases self a w)
        as [(Hf & _) | [(_ & _ & _ & Hreq) | (_ & ub & ls & _ & _ & _ & Hreq)]].
      * congruence.
      * rewrite Hreq in Hin. destruct Hin.
      * rewrite Hreq in Hin. destruct Hin as [<-|[]]. reflexivity.
    + intros r Hr.
      destruct (get_tickets_returned self a w r Hr)
        as [(Hf & _) | (_ & ub & ls & data & _ & _ & _ & _ & Hp)];
        [congruence|].
      apply search_page_inv in Hp as (? & ? & ? & _ & _ & _ & _ & ->).
      eexists. reflexivity.
  - assert (Hf : has_filters a = false).
    { destruct (has_filters a) eqn:E; [|reflexivity].
      contradiction Hg. now apply has_filters_given. }
    split; [unfold get_tickets; now rewrite Hf|]. split.
    + now apply get_tickets_listing.
    + intros r Hr.
      destruct (get_tickets_returned self a w r Hr)
        as [(_ & _ & data & _ & Hp) | (Hf' & _)]; [|congruence].
      apply listing_page_inv in Hp as (? & ? & ? & ? & _ & _ & _ & _ & _ & ->).
      reflexivity.
Qed.

(** ** Page size *)

Lemma requests_per_page (self : Client) (a : Args.t) (w : World) (req : Request) :
  In req (requests_of self a w) ->
  param "per_page" req = Some (PyStr.str_of_int (capped_per_page a)).
Proof.
  intros Hin.
  destruct (get_tickets_cases self a w)
    as [(_ & _ & Hreq) | [(_ & _ & _ & Hreq) | (_ & ub & ls & _ & _ & _ & Hreq)]];
    rewrite Hreq in Hin.
  - destruct Hin as [<-|[]]. reflexivity.
  - destruct Hin.
  - destruct Hin as [<-|[]]. reflexivity.
Qed.

Lemma returned_per_page (self : Client) (a : Args.t) (w : World) (r : TicketPage.t) :
  fst (get_tickets self a w) = inr r ->
  TicketPage.per_page r = capped_per_page a.
Proof.
  intros Hr.
  destruct (get_tickets_returned self a w r Hr)
    as [(_ & _ & data & _ & Hp) | (_ & ub & ls & data & _ & _ & _ & _ & Hp)].
  - apply listing_page_inv in Hp as (? & ? & ? & ? & _ & _ & _ & _ & _ & ->).
    reflexivity.
  - apply search_page_inv in Hp as (? & ? & ? & _ & _ & _ & _ & ->).
    reflexivity.
Qed.

(** C4: the [per_page] parameter of every request a call sends is the text
    of [min(per_page, 100)], a returned page echoes that number, it is at
    most 100, and it is 100 whenever the caller asks for more than 100. *)
Theorem per_page_never_exceeds_100 (self : Client) (a : Args.t) (w : World) :
  (forall req, In req (requests_of self a w) ->
     param "per_page" req = Some (PyStr.str_of_int (capped_per_page a)))
  /\ (forall r, fst (get_tickets self a w) = inr r ->
        TicketPage.per_page r = capped_per_page a)
  /\ capped_per_page a <= 100
  /\ (100 < Args.per_page a -> capped_per_page a = 100).
Proof.
  split; [intros req; apply requests_per_page|].
  split; [intros r; apply returned_per_page|].
  unfold capped_per_page. split; lia.
Qed.

(** C10: a [per_page] of at most 100, zero and negative numbers included,
    is sent to the vendor and echoed in the returned page as it is. *)
Theorem per_page_has_no_lower_bound (self : Client) (a : Args.t) (w : World) :
  Args.per_page a <= 100 ->
  (forall req, In req (requests_of self a w) ->
     param "per_page" req = Some (PyStr.str_of_int (Args.per_page a)))
  /\ (forall r, fst (get_tickets self a w) = inr r ->
        TicketPage.per_page r = Args.per_page a).
Proof.
  intros Hle.
  assert (E : capped_per_page a = Args.per_page a)
    by (unfold capped_per_page; lia).
  rewrite <- E. split.
  - intros req. apply requests_per_page.
  - intros r. apply returned_per_page.
Qed.

(** With [per_page=-5] the vendor is asked for [-5] tickets per page and the
    page says [-5]. *)
Lemma per_page_has_no_lower_bound_witness :
  (exists req r,
     requests_of sample_client args_negative_per_page (sample_world sample_listing)
       = [req]
     /\ param "per_page" req = Some "-5"
     /\ fst (get_tickets sample_client args_negative_per_page
               (sample_world sample_listing)) = inr r
     /\ TicketPage.per_page r = -5)
  /\ ((forall req,
         In req (requests_of sample_client args_negative_per_page
                   (sample_world sample_listing)) ->
         param "per_page" req
         = Some (PyStr.str_of_int (Args.per_page args_negative_per_page)))
      /\ (forall r,
            fst (get_tickets sample_client args_negative_per_page
                   (sample_world sample_listing)) = inr r ->
            TicketPage.per_page r = Args.per_page args_negative_per_page)).
Proof.
  split.
  - eexists _, _. repeat split; vm_compute; reflexivity.
  - apply (per_page_has_no_lower_bound sample_client args_negative_per_page
             (sample_world sample_listing)).
    vm_compute. discriminate.
Defined.

(** ** Neighbouring pages *)

(** C3: on the search path [previous_page] is [page - 1] exactly when
    [page > 1], whatever the vendor's document says; on the direct listing
    it is [page - 1] only when, in addition, the ["previous_page"] entry of
    the vendor's document is true, and [None] otherwise. *)
Theorem previous_page_by_path (self : Client) (a : Args.t) (w : World)
    (r : TicketPage.t) :
  fst (get_tickets self a w) = inr r ->
  (has_filters a = true ->
     TicketPage.previous_page r
     = if 1 <? Args.page a then Some (Args.page a - 1) else None)
  /\ (has_filters a = false ->
        exists data previous,
          vendor w (listing_request self a) = inr data
          /\ PyJson.get data "previous_page" = inr previous
          /\ TicketPage.previous_page r
             = if PyJson.truthy previous && (1 <? Args.page a)
               then Some (Args.page a - 1) else None).
Proof.
  intros Hr.
  destruct (get_tickets_returned self a w r Hr)
    as [(Hf & _ & data & Hv & Hp) | (Hf & ub & ls & data & _ & _ & _ & _ & Hp)].
  - split; [congruence|]. intros _.
    apply listing_page_inv in Hp
      as (? & ? & ? & previous & _ & _ & _ & _ & Hprev & ->).
    now exists data, previous.
  - split; [|congruence]. intros _.
    apply search_page_inv in Hp as (? & ? & ? & _ & _ & _ & _ & ->).
    reflexivity.
Qed.

(** Page 2 of a search has page 1 before it, page 2 of a listing whose
    document names no previous page has none: the same vendor document
    answers both calls. *)
Lemma previous_page_by_path_witness :
  (exists r1,
     fst (get_tickets sample_client args_window (sample_world sample_listing))
       = inr r1
     /\ TicketPage.previous_page r1 = Some 1)
  /\ exists r,
       fst (get_tickets sample_client args_second_page
              (sample_world sample_listing)) = inr r
       /\ TicketPage.previous_page r = None
       /\ (has_filters args_second_page = true ->
             TicketPage.previous_page r
             = if 1 <? Args.page args_second_page
               then Some (Args.page args_second_page - 1) else None)
       /\ (has_filters args_second_page = false ->
             exists data previous,
               vendor (sample_world sample_listing)
                 (listing_request sample_client args_second_page) = inr data
               /\ PyJson.get data "previous_page" = inr previous
               /\ TicketPage.previous_page r
                  = if PyJson.truthy previous && (1 <? Args.page args_second_page)
                    then Some (Args.page args_second_page - 1) else None).
Proof.
  split.
  - eexists. split; vm_compute; reflexivity.
  - eexists. split; [vm_compute; reflexivity|]. split; [reflexivity|].
    apply (previous_page_by_path sample_client args_second_page
             (sample_world sample_listing)).
    vm_compute. reflexivity.
Defined.

(** [has_more] and [next_page] of a returned page, on both paths, from the
    ["next_page"] entry of the vendor's document. *)
Lemma has_more_next_page (self : Client) (a : Args.t) (w : World)
    (r : TicketPage.t) :
  fst (get_tickets self a w) = inr r ->
  exists req data next,
    requests_of self a w = [req]
    /\ vendor w req = inr data
    /\ PyJson.get data "next_page" = inr next
    /\ TicketPage.has_more r = PyJson.is_not_none next
    /\ TicketPage.next_page r
       = if PyJson.truthy next then Some (Args.page a + 1) else None.
Proof.
  intros Hr.
  destruct (get_tickets_returned self a w r Hr)
    as [(_ & Hreq & data & Hv & Hp)
       | (_ & ub & ls & data & _ & _ & Hreq & Hv & Hp)].
  - apply listing_page_inv in Hp
      as (? & ? & next & ? & _ & _ & _ & Hn & _ & ->).
    eexists _, data, next. repeat split; eassumption.
  - apply search_page_inv in Hp as (? & ? & next & _ & _ & _ & Hn & ->).
    eexists _, data, next. repeat split; eassumption.
Qed.

(** When the entry is [None] or true, the two fields agree. *)
Lemma has_more_iff_next_page (self : Client) (a : Args.t) (w : World)
    (r : TicketPage.t) :
  fst (get_tickets self a w) = inr r ->
  (forall req data next,
     In req (requests_of self a w) -> vendor w req = inr data ->
     PyJson.get data "next_page" = inr next ->
     next = JNull \/ PyJson.truthy next = true) ->
  (TicketPage.has_more r = true <->
   TicketPage.next_page r = Some (Args.page a + 1)).
Proof.
  intros Hr Hdoc.
  destruct (has_more_next_page self a w r Hr)
    as (req & data & next & Hreq & Hv & Hn & -> & ->).
  assert (Hin : In req (requests_of self a w)) by (rewrite Hreq; now left).
  destruct (Hdoc req data next Hin Hv Hn) as [-> | Ht].
  - simpl. split; discriminate.
  - rewrite Ht. destruct next; try discriminate Ht; simpl; tauto.
Qed.

(** C9, at a document whose ["next_page"] is the empty string: the page
    says [has_more] and has no [next_page], on the direct listing and on
    the search path. *)
Theorem has_more_without_next_page :
  (exists r,
     fst (get_tickets sample_client Args.default (sample_world blank_next_page))
       = inr r
     /\ TicketPage.has_more r = true /\ TicketPage.next_page r = None)
  /\ (exists r,
        fst (get_tickets sample_client args_window (sample_world blank_next_page))
          = inr r
        /\ TicketPage.has_more r = true /\ TicketPage.next_page r = None).
Proof.
  split; eexists; (split; [vm_compute; reflexivity | split; reflexivity]).
Qed.

(** ** Entries of the search answer *)

(** An entry is of another kind when its result type is there and is not
    ["ticket"]. *)
Lemma other_kind_iff (item : json) :
  other_kind item = true
  <-> field item "result_type" <> JNull
      /\ field item "result_type" <> JStr "ticket".
Proof.
  unfold other_kind.
  destruct (field item "result_type") as [| b | n | s | l | f];
    try (split; [intros _; split; discriminate | reflexivity]).
  - split; [discriminate | intros [N _]; now contradiction N].
  - destruct (String.eqb_spec s "ticket") as [->|Hne]; simpl.
    + split; [discriminate | intros [_ N]; now contradiction N].
    + split; [|reflexivity]. intros _. split; [discriminate|].
      intros E. injection E as E. contradiction.
Qed.

(** A field the entry lacks is [None] in the summary. *)
Lemma field_missing (f : list (string * json)) (key : string) :
  PyJson.lookup key f = None -> field (JObj f) key = JNull.
Proof. intros H. unfold field. now rewrite H. Qed.

Lemma field_present (f : list (string * json)) (key : string) (v : json) :
  PyJson.lookup key f = Some v -> field (JObj f) key = v.
Proof. intros H. unfold field. now rewrite H. Qed.

(** C5: the tickets of a page returned by the search path are the
    summaries, in order, of the entries of the vendor's result list, the
    entries whose result type is there and is not ["ticket"] left out; a
    summary takes each field from the entry and has [None] where the entry
    has no such field. *)
Theorem search_results_keep_tickets (self : Client) (a : Args.t) (w : World)
    (r : TicketPage.t) :
  has_filters a = true ->
  fst (get_tickets self a w) = inr r ->
  exists req data results items,
    requests_of self a w = [req]
    /\ vendor w req = inr data
    /\ PyJson.get_default data "results" (JArr []) = inr results
    /\ PyJson.iterate results = inr items
    /\ TicketPage.tickets r
       = map summary (filter (fun item => negb (other_kind item)) items)
    /\ (forall item,
          other_kind item = true
          <-> field item "result_type" <> JNull
              /\ field item "result_type" <> JStr "ticket")
    /\ (forall item, In item items ->
          exists f,
            item = JObj f
            /\ forall key,
                 field item key
                 = match PyJson.lookup key f with
                   | Some v => v
                   | None => JNull
                   end).
Proof.
  intros Hf Hr.
  destruct (get_tickets_returned self a w r Hr)
    as [(Hf' & _) | (_ & ub & ls & data & _ & _ & Hreq & Hv & Hp)];
    [congruence|].
  apply search_page_inv in Hp
    as (results & items & next & Hres & Hit & Hd & _ & ->).
  eexists _, data, results, items.
  split; [exact Hreq|]. split; [exact Hv|]. split; [exact Hres|].
  split; [exact Hit|]. split; [reflexivity|].
  split; [intros item; apply other_kind_iff|].
  intros item Hin. rewrite forallb_forall in Hd. specialize (Hd item Hin).
  destruct item as [| | | | |f]; try discriminate Hd.
  exists f. split; reflexivity.
Qed.

(** Of the three entries [ticket], [user] and no type, the second is left
    out; the summaries have [None] for the fields the entries lack. *)
Lemma search_results_keep_tickets_witness :
  exists r,
    fst (get_tickets sample_client args_window (sample_world sample_results))
      = inr r
    /\ TicketPage.tickets r
       = [Ticket.mk (JInt 1) (JStr "printer") (JStr "open") JNull JNull JNull
            JNull JNull JNull JNull;
          Ticket.mk (JInt 3) (JStr "printer") (JStr "open") JNull JNull JNull
            JNull JNull JNull JNull]
    /\ exists req data results items,
         requests_of sample_client args_window (sample_world sample_results)
           = [req]
         /\ vendor (sample_world sample_results) req = inr data
         /\ PyJson.get_default data "results" (JArr []) = inr results
         /\ PyJson.iterate results = inr items
         /\ TicketPage.tickets r
            = map summary (filter (fun item => negb (other_kind item)) items)
         /\ (forall item,
               other_kind item = true
               <-> field item "result_type" <> JNull
                   /\ field item "result_type" <> JStr "ticket")
         /\ (forall item, In item items ->
               exists f,
                 item = JObj f
                 /\ forall key,
                      field item key
                      = match PyJson.lookup key f with
                        | Some v => v
                        | None => JNull
                        end).
Proof.
  eexists. split; [vm_compute; reflexivity|]. split; [reflexivity|].
  apply (search_results_keep_tickets sample_client args_window
           (sample_world sample_results)).
  - reflexivity.
  - vm_compute. reflexivity.
Defined.

(** ** The query *)

Lemma stamp_opt_in_range (now : PyTime.datetime) (h : option Z) :
  (forall x, h = Some x -> exists d, PyTime.hours_before now x = inr d) ->
  exists s, stamp_opt now h = inr s.
Proof.
  intros H. unfold stamp_opt. destruct h as [x|]; [|now eexists].
  destruct (H x eq_refl) as (d & ->). now eexists.
Qed.

Lemma hours_before_value (now : PyTime.datetime) (h : Z) (d : PyTime.datetime) :
  PyTime.hours_before now h = inr d -> d = now - h * PyTime.us_per_hour.
Proof.
  unfold PyTime.hours_before, PyTime.timedelta_hours, PyTime.sub.
  destruct (_ && _); [|discriminate].
  destruct (PyTime.in_range _); [|discriminate].
  intros H. now injection H as <-.
Qed.

(** When the dates exist, a call with filters builds its query and sends
    it. *)
Lemma search_query_built (self : Client) (a : Args.t) (w : World) :
  has_filters a = true ->
  dates_in_range a w ->
  exists ub ls,
    stamp_opt (clock w (ticks w)) (Args.stale_hours a) = inr ub
    /\ stamp_opt (clock w (last_tick a w)) (Args.last_hours a) = inr ls
    /\ fst (build_query a w)
       = inr (query_tokens a ub (final_since a ls), final_since a ls)
    /\ sends_query self a w (query_tokens a ub (final_since a ls)).
Proof.
  intros Hf [H1 H2].
  destruct (stamp_opt_in_range _ _ H1) as (ub & E1).
  destruct (stamp_opt_in_range _ _ H2) as (ls & E2).
  exists ub, ls. split; [exact E1|]. split; [exact E2|]. split.
  - destruct (build_query_run a w) as (w1 & -> & _). now rewrite E1, E2.
  - destruct (get_tickets_cases self a w)
      as [(Hf' & _) | [(_ & [E|E] & _) | (_ & ub' & ls' & E1' & E2' & _ & Hreq)]];
      try congruence.
    rewrite E1 in E1'. rewrite E2 in E2'.
    injection E1' as <-. injection E2' as <-.
    eexists. split; [exact Hreq|]. split; reflexivity.
Qed.

Lemma in_query_tokens (a : Args.t) (ub us : option string) (tok : string) :
  In tok (query_tokens a ub us)
  <-> tok = "type:ticket"
      \/ In tok (agent_tokens (Args.agent a))
      \/ In tok (organization_tokens (Args.organization a))
      \/ In tok (status_tokens a)
      \/ In tok (before_tokens ub)
      \/ In tok (since_tokens us).
Proof.
  unfold query_tokens. cbn [In]. rewrite !in_app_iff.
  split; intros H; repeat destruct H as [H|H]; auto 10.
Qed.

Ltac token_cases H :=
  unfold agent_tokens, organization_tokens, status_tokens, before_tokens,
    since_tokens in H;
  repeat match type of H with
         | context [match ?x with _ => _ end] => destruct x eqn:?
         end;
  cbn [In] in H; try contradiction; destruct H as [H | []].

Lemma has_filters_stale (a : Args.t) (sh : Z) :
  Args.stale_hours a = Some sh -> has_filters a = true.
Proof.
  intros H. unfold has_filters. rewrite H. cbn [is_some]. apply orb_true_r.
Qed.

Lemma has_filters_last (a : Args.t) (lh : Z) :
  Args.last_hours a = Some lh -> has_filters a = true.
Proof.
  intros H. unfold has_filters. rewrite H. cbn [is_some].
  rewrite orb_true_r. reflexivity.
Qed.

Lemma has_filters_agent (a : Args.t) (agent : string) :
  Args.agent a = Some agent -> agent <> EmptyString -> has_filters a = true.
Proof.
  intros H N. unfold has_filters. rewrite H.
  destruct agent; [contradiction|reflexivity].
Qed.

Lemma before_tokens_stamp (d : PyTime.datetime) :
  before_tokens (Some (PyTime.utc_z d)) = ["updated<" ++ PyTime.utc_z d].
Proof. unfold before_tokens. now rewrite truthy_utc_z. Qed.

Lemma since_tokens_stamp (d : PyTime.datetime) :
  since_tokens (Some (PyTime.utc_z d)) = ["updated>" ++ PyTime.utc_z d].
Proof. unfold since_tokens. now rewrite truthy_utc_z, strip_utc_z. Qed.

Lemma stamp_opt_some (now : PyTime.datetime) (h : Z) (d : PyTime.datetime) :
  PyTime.hours_before now h = inr d ->
  stamp_opt now (Some h) = inr (Some (PyTime.utc_z d)).
Proof. intros H. unfold stamp_opt. now rewrite H. Qed.

(** C6: with [stale_hours] and [last_hours] both supplied, the query has
    the token [updated<] for the time of the first clock reading minus
    [stale_hours] and the token [updated>] for the time of the second clock
    reading minus [last_hours], side by side. *)
Theorem stale_and_last_hours_bound_both_sides (self : Client) (a : Args.t)
    (w : World) (sh lh : Z) (d1 d2 : PyTime.datetime) :
  Args.stale_hours a = Some sh ->
  Args.last_hours a = Some lh ->
  PyTime.hours_before (clock w (ticks w)) sh = inr d1 ->
  PyTime.hours_before (clock w (S (ticks w))) lh = inr d2 ->
  d1 = clock w (ticks w) - sh * PyTime.us_per_hour
  /\ d2 = clock w (S (ticks w)) - lh * PyTime.us_per_hour
  /\ exists parts us,
       fst (build_query a w) = inr (parts, us)
       /\ sends_query self a w parts
       /\ In ("updated<" ++ PyTime.utc_z d1) parts
       /\ In ("updated>" ++ PyTime.utc_z d2) parts.
Proof.
  intros Hs Hl H1 H2.
  split; [now apply hours_before_value in H1|].
  split; [now apply hours_before_value in H2|].
  assert (Ht : last_tick a w = S (ticks w))
    by (unfold last_tick; now rewrite Hs).
  destruct (search_query_built self a w (has_filters_stale a sh Hs))
    as (ub & ls & E1 & E2 & Hq & Hsent).
  { split; intros x Hx.
    - rewrite Hs in Hx. injection Hx as <-. now exists d1.
    - rewrite Hl in Hx. injection Hx as <-. rewrite Ht. now exists d2. }
  rewrite Hs, (stamp_opt_some _ _ _ H1) in E1. injection E1 as <-.
  rewrite Ht, Hl, (stamp_opt_some _ _ _ H2) in E2. injection E2 as <-.
  eexists _, _. split; [exact Hq|]. split; [exact Hsent|].
  split; apply in_query_tokens.
  - do 4 right. left. rewrite before_tokens_stamp. now left.
  - do 5 right. unfold final_since. rewrite since_tokens_stamp. now left.
Qed.

(** With [stale_hours=24] and [last_hours=6] at 2026-02-26T10:00:00Z the
    query bounds the update time on both sides. *)
Lemma stale_and_last_hours_bound_both_sides_witness :
  PyTime.utc_z (PyTime.mk 2026 2 25 10 0 0 0) = "2026-02-25T10:00:00Z"
  /\ PyTime.utc_z (PyTime.mk 2026 2 26 4 0 0 1) = "2026-02-26T04:00:00.000001Z"
  /\ PyTime.mk 2026 2 25 10 0 0 0
     = clock (sample_world sample_results) (ticks (sample_world sample_results))
       - 24 * PyTime.us_per_hour
  /\ PyTime.mk 2026 2 26 4 0 0 1
     = clock (sample_world sample_results)
         (S (ticks (sample_world sample_results)))
       - 6 * PyTime.us_per_hour
  /\ exists parts us,
       fst (build_query args_window (sample_world sample_results))
         = inr (parts, us)
       /\ sends_query sample_client args_window (sample_world sample_results)
            parts
       /\ In ("updated<" ++ PyTime.utc_z (PyTime.mk 2026 2 25 10 0 0 0)) parts
       /\ In ("updated>" ++ PyTime.utc_z (PyTime.mk 2026 2 26 4 0 0 1)) parts.
Proof.
  split; [vm_compute; reflexivity|]. split; [vm_compute; reflexivity|].
  apply (stale_and_last_hours_bound_both_sides sample_client args_window
           (sample_world sample_results) 24 6).
  - reflexivity.
  - reflexivity.
  - vm_compute. reflexivity.
  - vm_compute. reflexivity.
Defined.

(** C7: with [stale_hours] supplied, the query has the token
    [status<solved] when [include_solved] is false and has no such token
    when [include_solved] is true. *)
Theorem stale_hours_status_token (self : Client) (a : Args.t) (w : World)
    (sh : Z) :
  Args.stale_hours a = Some sh ->
  dates_in_range a w ->
  exists parts us,
    fst (build_query a w) = inr (parts, us)
    /\ sends_query self a w parts
    /\ (Args.include_solved a = false -> In "status<solved" parts)
    /\ (Args.include_solved a = true -> ~ In "status<solved" parts).
Proof.
  intros Hs Hd.
  destruct (search_query_built self a w (has_filters_stale a sh Hs) Hd)
    as (ub & ls & _ & _ & Hq & Hsent).
  eexists _, _. split; [exact Hq|]. split; [exact Hsent|]. split.
  - intros Hi. apply in_query_tokens. do 3 right. left.
    unfold status_tokens. rewrite Hs, Hi. now left.
  - intros Hi Hin. apply in_query_tokens in Hin.
    destruct Hin as [H|[H|[H|[H|[H|H]]]]].
    + discriminate H.
    + token_cases H; discriminate H.
    + token_cases H; discriminate H.
    + unfold status_tokens in H. rewrite Hs, Hi in H. destruct H.
    + token_cases H; discriminate H.
    + token_cases H; discriminate H.
Qed.

(** A stale search for open work has the token; one that includes solved
    tickets has not. *)
Lemma stale_hours_status_token_witness :
  (exists parts us,
     fst (build_query args_window (sample_world sample_results))
       = inr (parts, us)
     /\ In "status<solved" parts)
  /\ exists parts us,
       fst (build_query args_stale_all (sample_world sample_results))
         = inr (parts, us)
       /\ sends_query sample_client args_stale_all (sample_world sample_results)
            parts
       /\ (Args.include_solved args_stale_all = false ->
             In "status<solved" parts)
       /\ (Args.include_solved args_stale_all = true ->
             ~ In "status<solved" parts).
Proof.
  split.
  - eexists _, _. split; [vm_compute; reflexivity|]. vm_compute. tauto.
  - apply (stale_hours_status_token sample_client args_stale_all
             (sample_world sample_results) 24).
    + reflexivity.
    + split; intros x Hx.
      * injection Hx as <-. eexists. vm_compute. reflexivity.
      * discriminate Hx.
Defined.

(** C2: with [last_hours] supplied, the value of [updated_since] that the
    query uses in its only [updated>] token, and that the returned page
    echoes in ["filters"], is the stamp of the clock reading minus
    [last_hours], whatever [updated_since] the caller gave. *)
Theorem last_hours_overrides_updated_since (self : Client) (a : Args.t)
    (w : World) (lh : Z) (d : PyTime.datetime) :
  Args.last_hours a = Some lh ->
  (forall sh, Args.stale_hours a = Some sh ->
     exists d1, PyTime.hours_before (clock w (ticks w)) sh = inr d1) ->
  PyTime.hours_before (clock w (last_tick a w)) lh = inr d ->
  d = clock w (last_tick a w) - lh * PyTime.us_per_hour
  /\ (exists parts,
        fst (build_query a w) = inr (parts, Some (PyTime.utc_z d))
        /\ sends_query self a w parts
        /\ In ("updated>" ++ PyTime.utc_z d) parts
        /\ (forall tok, In tok parts -> prefix "updated>" tok = true ->
              tok = "updated>" ++ PyTime.utc_z d))
  /\ (forall r, fst (get_tickets self a w) = inr r ->
        exists f,
          TicketPage.filters r = Some f
          /\ Filters.updated_since f = Some (PyTime.utc_z d)).
Proof.
  intros Hl Hstale Hd.
  split; [now apply hours_before_value in Hd|].
  pose proof (stamp_opt_some _ _ _ Hd) as El. rewrite <- Hl in El.
  split.
  - destruct (search_query_built self a w (has_filters_last a lh Hl))
      as (ub & ls & _ & E2 & Hq & Hsent).
    { split; [exact Hstale|]. intros x Hx. rewrite Hl in Hx.
      injection Hx as <-. now exists d. }
    rewrite El in E2. injection E2 as <-.
    unfold final_since in Hq, Hsent.
    eexists. split; [exact Hq|]. split; [exact Hsent|]. split.
    + apply in_query_tokens. do 5 right. rewrite since_tokens_stamp. now left.
    + intros tok Hin Hp. apply in_query_tokens in Hin.
      destruct Hin as [H|[H|[H|[H|[H|H]]]]].
      * subst tok. discriminate Hp.
      * token_cases H; subst tok; discriminate Hp.
      * token_cases H; subst tok; discriminate Hp.
      * token_cases H; subst tok; discriminate Hp.
      * token_cases H; subst tok; discriminate Hp.
      * rewrite since_tokens_stamp in H. destruct H as [<-|[]]. reflexivity.
  - intros r Hr.
    destruct (get_tickets_returned self a w r Hr)
      as [(Hf & _) | (_ & ub & ls & data & _ & E2 & _ & _ & Hp)].
    { rewrite (has_filters_last a lh Hl) in Hf. discriminate Hf. }
    rewrite El in E2. injection E2 as <-.
    apply search_page_inv in Hp as (? & ? & ? & _ & _ & _ & _ & ->).
    eexists. split; reflexivity.
Qed.

(** With [updated_since="2026-01-01"] and [last_hours=6] the page echoes
    six hours before the clock reading. *)
Lemma last_hours_overrides_updated_since_witness :
  Args.updated_since args_window = Some "2026-01-01"
  /\ PyTime.utc_z (PyTime.mk 2026 2 26 4 0 0 1) = "2026-02-26T04:00:00.000001Z"
  /\ (exists r,
        fst (get_tickets sample_client args_window (sample_world sample_results))
          = inr r)
  /\ PyTime.mk 2026 2 26 4 0 0 1
     = clock (sample_world sample_results)
         (last_tick args_window (sample_world sample_results))
       - 6 * PyTime.us_per_hour
  /\ (exists parts,
        fst (build_query args_window (sample_world sample_results))
          = inr (parts, Some (PyTime.utc_z (PyTime.mk 2026 2 26 4 0 0 1)))
        /\ sends_query sample_client args_window (sample_world sample_results)
             parts
        /\ In ("updated>" ++ PyTime.utc_z (PyTime.mk 2026 2 26 4 0 0 1)) parts
        /\ (forall tok, In tok parts -> prefix "updated>" tok = true ->
              tok = "updated>" ++ PyTime.utc_z (PyTime.mk 2026 2 26 4 0 0 1)))
  /\ (forall r,
        fst (get_tickets sample_client args_window (sample_world sample_results))
          = inr r ->
        exists f,
          TicketPage.filters r = Some f
          /\ Filters.updated_since f
             = Some (PyTime.utc_z (PyTime.mk 2026 2 26 4 0 0 1))).
Proof.
  split; [reflexivity|]. split; [vm_compute; reflexivity|].
  split; [eexists; vm_compute; reflexivity|].
  apply (last_hours_overrides_updated_since sample_client args_window
           (sample_world sample_results) 6).
  - reflexivity.
  - intros sh Hsh. injection Hsh as <-. eexists. vm_compute. reflexivity.
  - vm_compute. reflexivity.
Defined.

(** C8, as stated, fails: an [agent] supplied as the empty string is not
    made of digits, and the query that is sent has no assignee token of
    either kind. *)
Lemma empty_agent_adds_no_token :
  Args.agent args_empty_agent_org = Some EmptyString
  /\ PyStr.isdigit EmptyString = false
  /\ exists parts us,
       fst (build_query args_empty_agent_org (sample_world sample_results))
         = inr (parts, us)
       /\ sends_query sample_client args_empty_agent_org
            (sample_world sample_results) parts
       /\ parts = ["type:ticket"; "organization:" ++ dquote ++ "Acme" ++ dquote]
       /\ forall tok, In tok parts -> prefix "assignee" tok = false.
Proof.
  split; [reflexivity|]. split; [reflexivity|].
  eexists _, _. split; [vm_compute; reflexivity|].
  split; [eexists; repeat split; vm_compute; reflexivity|].
  split; [reflexivity|].
  intros tok [<-|[<-|[]]]; reflexivity.
Qed.

(** C8, amended: for an [agent] that is supplied and not empty, when the
    value without its surrounding white space is made of digits the query
    has the token [assignee_id:] followed by it and no token that starts
    with [assignee:] and a quote; otherwise the query has the token
    [assignee:] followed by the stripped value between quotes, and no
    token that starts with [assignee_id:]. *)
Theorem agent_token_by_kind (self : Client) (a : Args.t) (w : World)
    (agent : string) :
  Args.agent a = Some agent ->
  agent <> EmptyString ->
  dates_in_range a w ->
  exists parts us,
    fst (build_query a w) = inr (parts, us)
    /\ sends_query self a w parts
    /\ (PyStr.isdigit (PyStr.strip agent) = true ->
          In ("assignee_id:" ++ PyStr.strip agent) parts
          /\ forall tok, In tok parts ->
               prefix ("assignee:" ++ dquote) tok = false)
    /\ (PyStr.isdigit (PyStr.strip agent) = false ->
          In ("assignee:" ++ dquote ++ PyStr.strip agent ++ dquote) parts
          /\ forall tok, In tok parts -> prefix "assignee_id:" tok = false).
Proof.
  intros Ha Hne Hd.
  destruct (search_query_built self a w (has_filters_agent a agent Ha Hne) Hd)
    as (ub & ls & _ & _ & Hq & Hsent).
  eexists _, _. split; [exact Hq|]. split; [exact Hsent|].
  assert (Ht : PyStr.truthy agent = true)
    by (destruct agent; [contradiction | reflexivity]).
  split; intros Hdig; split.
  - apply in_query_tokens. right. left.
    unfold agent_tokens. rewrite Ha, Ht, Hdig. now left.
  - intros tok Hin. apply in_query_tokens in Hin.
    destruct Hin as [H|[H|[H|[H|[H|H]]]]].
    + subst tok. reflexivity.
    + unfold agent_tokens in H. rewrite Ha, Ht, Hdig in H.
      destruct H as [<-|[]]. reflexivity.
    + token_cases H; subst tok; reflexivity.
    + token_cases H; subst tok; reflexivity.
    + token_cases H; subst tok; reflexivity.
    + token_cases H; subst tok; reflexivity.
  - apply in_query_tokens. right. left.
    unfold agent_tokens. rewrite Ha, Ht, Hdig. now left.
  - intros tok Hin. apply in_query_tokens in Hin.
    destruct Hin as [H|[H|[H|[H|[H|H]]]]].
    + subst tok. reflexivity.
    + unfold agent_tokens in H. rewrite Ha, Ht, Hdig in H.
      destruct H as [<-|[]]. reflexivity.
    + token_cases H; subst tok; reflexivity.
    + token_cases H; subst tok; reflexivity.
    + token_cases H; subst tok; reflexivity.
    + token_cases H; subst tok; reflexivity.
Qed.

(** [agent=" 12345 "] gives the token [assignee_id:12345]. *)
Lemma agent_token_by_kind_witness :
  PyStr.strip " 12345 " = "12345"
  /\ PyStr.isdigit (PyStr.strip " 12345 ") = true
  /\ exists parts us,
       fst (build_query args_agent_id (sample_world sample_results))
         = inr (parts, us)
       /\ sends_query sample_client args_agent_id (sample_world sample_results)
            parts
       /\ (PyStr.isdigit (PyStr.strip " 12345 ") = true ->
             In ("assignee_id:" ++ PyStr.strip " 12345 ") parts
             /\ forall tok, In tok parts ->
                  prefix ("assignee:" ++ dquote) tok = false)
       /\ (PyStr.isdigit (PyStr.strip " 12345 ") = false ->
             In ("assignee:" ++ dquote ++ PyStr.strip " 12345 " ++ dquote) parts
             /\ forall tok, In tok parts -> prefix "assignee_id:" tok = false).
Proof.
  split; [reflexivity|]. split; [reflexivity|].
  apply (agent_token_by_kind sample_client args_agent_id
           (sample_world sample_results) " 12345 ").
  - reflexivity.
  - discriminate.
  - split; intros x Hx; discriminate Hx.
Defined.

(** ** Termination with a page *)

Lemma search_page_returns (a : Args.t) (us : option string)
    (f : list (string * json)) :
  lists_dicts f "results" -> exists r, search_page a us (JObj f) = inr r.
Proof.
  unfold lists_dicts, search_page. cbn [PyJson.get_default PyJson.get ebind].
  destruct (PyJson.lookup "results" f) as [v|].
  - intros (items & -> & Hd). cbn [PyJson.iterate ebind].
    rewrite search_loop_eq, Hd. cbn [ebind]. eexists. reflexivity.
  - intros _. cbn [PyJson.iterate ebind search_loop]. eexists. reflexivity.
Qed.

Lemma listing_page_returns (a : Args.t) (f : list (string * json)) :
  lists_dicts f "tickets" -> exists r, listing_page a (JObj f) = inr r.
Proof.
  unfold lists_dicts, listing_page. cbn [PyJson.get_default PyJson.get ebind].
  destruct (PyJson.lookup "tickets" f) as [v|].
  - intros (items & -> & Hd). cbn [PyJson.iterate ebind].
    rewrite listing_loop_eq, Hd. cbn [ebind]. eexists. reflexivity.
  - intros _. cbn [PyJson.iterate ebind listing_loop]. eexists. reflexivity.
Qed.

(** The method returns a page when the dates exist and the vendor answers
    with a dict whose ticket lists are lists of dicts. *)
Lemma get_tickets_returns (self : Client) (a : Args.t) (w : World)
    (f : list (string * json)) :
  dates_in_range a w ->
  (forall req, vendor w req = inr (JObj f)) ->
  lists_dicts f "results" -> lists_dicts f "tickets" ->
  exists r, fst (get_tickets self a w) = inr r.
Proof.
  intros [H1 H2] Hv Hres Htic.
  destruct (get_tickets_cases self a w)
    as [(_ & Hrun & _) | [(_ & [E|E] & _) | (_ & ub & ls & _ & _ & Hrun & _)]].
  - rewrite Hrun. unfold answer. rewrite Hv.
    destruct (listing_page_returns a f Htic) as (r & ->). now exists r.
  - destruct (stamp_opt_in_range _ _ H1) as (s & Es). congruence.
  - destruct (stamp_opt_in_range _ _ H2) as (s & Es). congruence.
  - rewrite Hrun. unfold answer. rewrite Hv.
    destruct (search_page_returns a (final_since a ls) f Hres) as (r & ->).
    now exists r.
Qed.

(** * Further properties of [get_tickets] *)

(** ** Invariants of the returned page *)

(** X1: a returned page names a previous page only when [page > 1], and
    the page it names is [page - 1], on both paths. *)
Theorem previous_page_needs_page_above_one (self : Client) (a : Args.t)
    (w : World) (r : TicketPage.t) (p : Z) :
  fst (get_tickets self a w) = inr r ->
  TicketPage.previous_page r = Some p ->
  1 < Args.page a /\ p = Args.page a - 1.
Proof.
  intros Hr Hp.
  destruct (get_tickets_returned self a w r Hr)
    as [(_ & _ & data & _ & Hpage)
       | (_ & ub & ls & data & _ & _ & _ & _ & Hpage)].
  - apply listing_page_inv in Hpage
      as (? & ? & ? & previous & _ & _ & _ & _ & _ & ->).
    cbn [TicketPage.previous_page] in Hp.
    destruct (PyJson.truthy previous); cbn [andb] in Hp; [|discriminate].
    destruct (1 <? Args.page a) eqn:E; [|discriminate].
    apply Z.ltb_lt in E. injection Hp as <-. now split.
  - apply search_page_inv in Hpage as (? & ? & ? & _ & _ & _ & _ & ->).
    cbn [TicketPage.previous_page] in Hp.
    destruct (1 <? Args.page a) eqn:E; [|discriminate].
    apply Z.ltb_lt in E. injection Hp as <-. now split.
Qed.

Lemma previous_page_needs_page_above_one_witness :
  exists r,
    fst (get_tickets sample_client args_window (sample_world sample_results))
      = inr r
    /\ TicketPage.previous_page r = Some 1
    /\ 1 < Args.page args_window /\ 1 = Args.page args_window - 1.
Proof.
  eexists. split; [vm_compute; reflexivity|]. split; [reflexivity|].
  eapply (previous_page_needs_page_above_one sample_client args_window
            (sample_world sample_results)).
  - vm_compute. reflexivity.
  - reflexivity.
Defined.

(** X2: a returned page that names a next page says [has_more], and the
    page it names is [page + 1], on both paths. *)
Theorem next_page_implies_has_more (self : Client) (a : Args.t) (w : World)
    (r : TicketPage.t) (n : Z) :
  fst (get_tickets self a w) = inr r ->
  TicketPage.next_page r = Some n ->
  TicketPage.has_more r = true /\ n = Args.page a + 1.
Proof.
  intros Hr Hn.
  destruct (has_more_next_page self a w r Hr)
    as (req & data & next & _ & _ & _ & Hm & Hnext).
  rewrite Hnext in Hn. rewrite Hm.
  destruct (PyJson.truthy next) eqn:Ht; [|discriminate].
  injection Hn as <-. split; [|reflexivity].
  destruct next; try reflexivity. discriminate Ht.
Qed.

Lemma next_page_implies_has_more_witness :
  exists r,
    fst (get_tickets sample_client args_window (sample_world sample_results))
      = inr r
    /\ TicketPage.next_page r = Some 3
    /\ TicketPage.has_more r = true /\ 3 = Args.page args_window + 1.
Proof.
  eexists. split; [vm_compute; reflexivity|]. split; [reflexivity|].
  eapply (next_page_implies_has_more sample_client args_window
            (sample_world sample_results)).
  - vm_compute. reflexivity.
  - reflexivity.
Defined.

(** X3: a returned page echoes [page], [sort_by] and [sort_order] as the
    caller gave them, and its [count] is the length of its [tickets]. *)
Theorem page_echoes_and_counts (self : Client) (a : Args.t) (w : World)
    (r : TicketPage.t) :
  fst (get_tickets self a w) = inr r ->
  TicketPage.page r = Args.page a
  /\ TicketPage.sort_by r = Args.sort_by a
  /\ TicketPage.sort_order r = Args.sort_order a
  /\ TicketPage.count r = Z.of_nat (List.length (TicketPage.tickets r)).
Proof.
  intros Hr.
  destruct (get_tickets_returned self a w r Hr)
    as [(_ & _ & data & _ & Hpage)
       | (_ & ub & ls & data & _ & _ & _ & _ & Hpage)].
  - apply listing_page_inv in Hpage
      as (? & ? & ? & ? & _ & _ & _ & _ & _ & ->).
    repeat split; reflexivity.
  - apply search_page_inv in Hpage as (? & ? & ? & _ & _ & _ & _ & ->).
    repeat split; reflexivity.
Qed.

Lemma page_echoes_and_counts_witness :
  exists r,
    fst (get_tickets sample_client args_window (sample_world sample_results))
      = inr r
    /\ TicketPage.count r = 2
    /\ TicketPage.page r = Args.page args_window
    /\ TicketPage.sort_by r = Args.sort_by args_window
    /\ TicketPage.sort_order r = Args.sort_order args_window
    /\ TicketPage.count r = Z.of_nat (List.length (TicketPage.tickets r)).
Proof.
  eexists. split; [vm_compute; reflexivity|]. split; [reflexivity|].
  apply (page_echoes_and_counts sample_client args_window
           (sample_world sample_results)).
  vm_compute. reflexivity.
Defined.

(** X4: the direct listing drops nothing: the tickets of a returned page
    are the summaries of all the entries of the vendor's list, in order,
    whatever their ["result_type"]. *)
Theorem listing_keeps_every_entry (self : Client) (a : Args.t) (w : World)
    (r : TicketPage.t) :
  has_filters a = false ->
  fst (get_tickets self a w) = inr r ->
  exists data tickets_data items,
    vendor w (listing_request self a) = inr data
    /\ PyJson.get_default data "tickets" (JArr []) = inr tickets_data
    /\ PyJson.iterate tickets_data = inr items
    /\ TicketPage.tickets r = map summary items
    /\ TicketPage.count r = Z.of_nat (List.length items).
Proof.
  intros Hf Hr.
  destruct (get_tickets_returned self a w r Hr)
    as [(_ & _ & data & Hv & Hpage) | (Hf' & _)]; [|congruence].
  apply listing_page_inv in Hpage
    as (td & items & ? & ? & Htd & Hit & _ & _ & _ & ->).
  exists data, td, items. cbn [TicketPage.tickets TicketPage.count].
  rewrite length_map. now repeat split.
Qed.

Lemma listing_keeps_every_entry_witness :
  exists r,
    fst (get_tickets sample_client Args.default (sample_world mixed_listing))
      = inr r
    /\ TicketPage.count r = 2
    /\ exists data tickets_data items,
         vendor (sample_world mixed_listing)
           (listing_request sample_client Args.default) = inr data
         /\ PyJson.get_default data "tickets" (JArr []) = inr tickets_data
         /\ PyJson.iterate tickets_data = inr items
         /\ TicketPage.tickets r = map summary items
         /\ TicketPage.count r = Z.of_nat (List.length items).
Proof.
  eexists. split; [vm_compute; reflexivity|]. split; [reflexivity|].
  apply (listing_keeps_every_entry sample_client Args.default
           (sample_world mixed_listing)).
  - reflexivity.
  - vm_compute. reflexivity.
Defined.

(** ** Requests and failures *)

(** The outcome of a call that sent [req]. *)
Lemma get_tickets_sent (self : Client) (a : Args.t) (w : World) (req : Request) :
  requests_of self a w = [req] ->
  (has_filters a = false
   /\ fst (get_tickets self a w) = finish (answer w req (listing_page a)))
  \/ (has_filters a = true
      /\ exists us,
           fst (get_tickets self a w) = finish (answer w req (search_page a us))).
Proof.
  intros Hreq.
  destruct (get_tickets_cases self a w)
    as [(Hf & Hrun & Hr) | [(_ & _ & _ & Hr) | (Hf & ub & ls & _ & _ & Hrun & Hr)]];
    rewrite Hr in Hreq.
  - injection Hreq as <-. left. now split.
  - discriminate Hreq.
  - injection Hreq as <-. right. split; [assumption|].
    eexists. exact Hrun.
Qed.




Lemma search_page_list (a : Args.t) (us : option string)
    (f : list (string * json)) (v : json) :
  PyJson.lookup "results" f = Some v ->
  search_page a us (JObj f)
  = match PyJson.iterate v with
    | inl e => inl e
    | inr items =>
        if forallb is_dict items
        then search_page a us (JObj f)
        else inl PyJson.AttributeError
    end.
Proof.
  intros Hl. unfold search_page at 1.
  cbn [PyJson.get_default PyJson.get ebind]. rewrite Hl.
  destruct (PyJson.iterate v) as [e|items] eqn:Hit; [reflexivity|].
  cbn [ebind]. rewrite search_loop_eq.
  destruct (forallb is_dict items) eqn:Hd; [|reflexivity].
  unfold search_page. cbn [PyJson.get_default PyJson.get ebind].
  rewrite Hl, Hit. cbn [ebind]. rewrite search_loop_eq, Hd. reflexivity.
Qed.

Lemma listing_page_list (a : Args.t) (f : list (string * json)) (v : json) :
  PyJson.lookup "tickets" f = Some v ->
  listing_page a (JObj f)
  = match PyJson.iterate v with
    | inl e => inl e
    | inr items =>
        if forallb is_dict items
        then listing_page a (JObj f)
        else inl PyJson.AttributeError
    end.
Proof.
  intros Hl. unfold listing_page at 1.
  cbn [PyJson.get_default PyJson.get ebind]. rewrite Hl.
  destruct (PyJson.iterate v) as [e|items] eqn:Hit; [reflexivity|].
  cbn [ebind]. rewrite listing_loop_eq.
  destruct (forallb is_dict items) eqn:Hd; [|reflexivity].
  unfold listing_page. cbn [PyJson.get_default PyJson.get ebind].
  rewrite Hl, Hit. cbn [ebind]. rewrite listing_loop_eq, Hd. reflexivity.
Qed.

(** X7: no partial page: when the list of entries in the vendor's
    document holds one entry that is not a dict, the call fails with an
    [AttributeError]; when the entry under the key is [null], a number or a
    boolean, it fails with a [TypeError]. *)
Theorem malformed_entries_fail_the_call (self : Client) (a : Args.t)
    (w : World) (req : Request) (f : list (string * json)) (v : json) :
  requests_of self a w = [req] ->
  vendor w req = inr (JObj f) ->
  PyJson.lookup (list_key a) f = Some v ->
  (forall items, v = JArr items -> forallb is_dict items = false ->
     fst (get_tickets self a w)
     = inl (Failed (JsonError PyJson.AttributeError)))
  /\ (PyJson.iterate v = inl PyJson.TypeError ->
        fst (get_tickets self a w) = inl (Failed (JsonError PyJson.TypeError))).
Proof.
  intros Hreq Hv Hl. unfold list_key in Hl.
  destruct (get_tickets_sent self a w req Hreq)
    as [(Hf & ->) | (Hf & us & ->)];
    rewrite Hf in Hl; unfold answer; rewrite Hv.
  - rewrite (listing_page_list a f v Hl). split.
    + intros items -> Hd. cbn [PyJson.iterate]. now rewrite Hd.
    + intros ->. reflexivity.
  - rewrite (search_page_list a us f v Hl). split.
    + intros items -> Hd. cbn [PyJson.iterate]. now rewrite Hd.
    + intros ->. reflexivity.
Qed.

Lemma malformed_entries_fail_the_call_witness :
  fst (get_tickets sample_client args_window (sample_world broken_results))
  = inl (Failed (JsonError PyJson.AttributeError)).
Proof.
  edestruct (malformed_entries_fail_the_call sample_client args_window
               (sample_world broken_results)) as [H _].
  - vm_compute. reflexivity.
  - reflexivity.
  - reflexivity.
  - apply (H _ eq_refl). reflexivity.
Defined.

(** X8: when the vendor's document is a dict without the list of entries,
    the call returns an empty page. *)
Theorem missing_list_gives_empty_page (self : Client) (a : Args.t) (w : World)
    (req : Request) (f : list (string * json)) :
  requests_of self a w = [req] ->
  vendor w req = inr (JObj f) ->
  PyJson.lookup (list_key a) f = None ->
  exists r,
    fst (get_tickets self a w) = inr r
    /\ TicketPage.tickets r = []
    /\ TicketPage.count r = 0.
Proof.
  intros Hreq Hv Hl. unfold list_key in Hl.
  destruct (get_tickets_sent self a w req Hreq)
    as [(Hf & ->) | (Hf & us & ->)];
    rewrite Hf in Hl; unfold answer; rewrite Hv.
  - unfold listing_page. cbn [PyJson.get_default PyJson.get ebind].
    rewrite Hl. cbn [PyJson.iterate ebind listing_loop finish].
    eexists. repeat split.
  - unfold search_page. cbn [PyJson.get_default PyJson.get ebind].
    rewrite Hl. cbn [PyJson.iterate ebind search_loop finish].
    eexists. repeat split.
Qed.

Lemma missing_list_gives_empty_page_witness :
  exists r,
    fst (get_tickets sample_client args_window (sample_world bare_answer))
      = inr r
    /\ TicketPage.tickets r = []
    /\ TicketPage.count r = 0.
Proof.
  eapply (missing_list_gives_empty_page sample_client args_window
            (sample_world bare_answer)).
  - vm_compute. reflexivity.
  - reflexivity.
  - reflexivity.
Defined.

(** ** More of the query *)

Lemma has_filters_organization (a : Args.t) (org : string) :
  Args.organization a = Some org -> org <> EmptyString -> has_filters a = true.
Proof.
  intros H N. unfold has_filters. rewrite H.
  destruct org; [contradiction|]. cbn [PyStr.opt_truthy PyStr.truthy].
  rewrite orb_true_r. reflexivity.
Qed.

Lemma has_filters_since (a : Args.t) (s : string) :
  Args.updated_since a = Some s -> s <> EmptyString -> has_filters a = true.
Proof.
  intros H N. unfold has_filters. rewrite H.
  destruct s; [contradiction|]. cbn [PyStr.opt_truthy PyStr.truthy].
  rewrite orb_true_r. reflexivity.
Qed.

(** X9: an [organization] that is supplied and not empty puts into the
    query the token [organization:] followed by the value, without its
    surrounding white space, between quotes. *)
Theorem organization_token (self : Client) (a : Args.t) (w : World)
    (org : string) :
  Args.organization a = Some org ->
  org <> EmptyString ->
  dates_in_range a w ->
  exists parts us,
    fst (build_query a w) = inr (parts, us)
    /\ sends_query self a w parts
    /\ In ("organization:" ++ dquote ++ PyStr.strip org ++ dquote) parts.
Proof.
  intros Ho Hne Hd.
  destruct (search_query_built self a w (has_filters_organization a org Ho Hne) Hd)
    as (ub & ls & _ & _ & Hq & Hsent).
  eexists _, _. split; [exact Hq|]. split; [exact Hsent|].
  apply in_query_tokens. do 2 right. left.
  unfold organization_tokens. rewrite Ho.
  destruct org; [contradiction|]. now left.
Qed.

Lemma organization_token_witness :
  PyStr.strip " Acme Corp " = "Acme Corp"
  /\ exists parts us,
       fst (build_query args_org_since (sample_world sample_results))
         = inr (parts, us)
       /\ sends_query sample_client args_org_since (sample_world sample_results)
            parts
       /\ In ("organization:" ++ dquote ++ PyStr.strip " Acme Corp " ++ dquote)
            parts.
Proof.
  split; [reflexivity|].
  apply (organization_token sample_client args_org_since
           (sample_world sample_results) " Acme Corp ").
  - reflexivity.
  - discriminate.
  - split; intros x Hx; discriminate Hx.
Defined.

(** X10: without [last_hours], an [updated_since] that is supplied and not
    empty puts into the query the token [updated>] followed by the value
    without its surrounding white space, while the page echoes the value
    as the caller wrote it. *)
Theorem updated_since_token_and_echo (self : Client) (a : Args.t) (w : World)
    (s : string) :
  Args.last_hours a = None ->
  Args.updated_since a = Some s ->
  s <> EmptyString ->
  dates_in_range a w ->
  (exists parts,
     fst (build_query a w) = inr (parts, Some s)
     /\ sends_query self a w parts
     /\ In ("updated>" ++ PyStr.strip s) parts)
  /\ (forall r, fst (get_tickets self a w) = inr r ->
        exists f,
          TicketPage.filters r = Some f /\ Filters.updated_since f = Some s).
Proof.
  intros Hl Hs Hne Hd.
  assert (Hf : has_filters a = true) by exact (has_filters_since a s Hs Hne).
  assert (Els : forall now ls,
             stamp_opt now (Args.last_hours a) = inr ls ->
             final_since a ls = Some s).
  { intros now ls E. rewrite Hl in E. injection E as <-. exact Hs. }
  split.
  - destruct (search_query_built self a w Hf Hd)
      as (ub & ls & _ & E2 & Hq & Hsent).
    rewrite (Els _ _ E2) in Hq, Hsent.
    eexists. split; [exact Hq|]. split; [exact Hsent|].
    apply in_query_tokens. do 5 right.
    unfold since_tokens. destruct s; [contradiction|]. now left.
  - intros r Hr.
    destruct (get_tickets_returned self a w r Hr)
      as [(Hf' & _) | (_ & ub & ls & data & _ & E2 & _ & _ & Hp)];
      [congruence|].
    rewrite (Els _ _ E2) in Hp.
    apply search_page_inv in Hp as (? & ? & ? & _ & _ & _ & _ & ->).
    eexists. split; reflexivity.
Qed.

Lemma updated_since_token_and_echo_witness :
  PyStr.strip " 2026-01-01 " = "2026-01-01"
  /\ (exists r,
        fst (get_tickets sample_client args_org_since
               (sample_world sample_results)) = inr r)
  /\ (exists parts,
        fst (build_query args_org_since (sample_world sample_results))
          = inr (parts, Some " 2026-01-01 ")
        /\ sends_query sample_client args_org_since
             (sample_world sample_results) parts
        /\ In ("updated>" ++ PyStr.strip " 2026-01-01 ") parts)
  /\ (forall r,
        fst (get_tickets sample_client args_org_since
               (sample_world sample_results)) = inr r ->
        exists f,
          TicketPage.filters r = Some f
          /\ Filters.updated_since f = Some " 2026-01-01 ").
Proof.
  split; [reflexivity|]. split; [eexists; vm_compute; reflexivity|].
  apply (updated_since_token_and_echo sample_client args_org_since
           (sample_world sample_results) " 2026-01-01 ").
  - reflexivity.
  - reflexivity.
  - discriminate.
  - split; intros x Hx; discriminate Hx.
Defined.

(** X11: the [query] parameter exists on search requests only, and there
    it begins with [type:ticket]. *)
Theorem query_begins_with_type_ticket (self : Client) (a : Args.t) (w : World)
    (req : Request) :
  In req (requests_of self a w) ->
  if has_filters a
  then exists q, param "query" req = Some q /\ prefix "type:ticket" q = true
  else param "query" req = None.
Proof.
  intros Hin.
  destruct (get_tickets_cases self a w)
    as [(Hf & _ & Hr) | [(_ & _ & _ & Hr) | (Hf & ub & ls & _ & _ & _ & Hr)]];
    rewrite Hr in Hin.
  - destruct Hin as [<-|[]]. rewrite Hf. reflexivity.
  - destruct Hin.
  - destruct Hin as [<-|[]]. rewrite Hf.
    eexists. split; [reflexivity|].
    unfold query_tokens.
    destruct (agent_tokens (Args.agent a) ++ organization_tokens (Args.organization a)
              ++ status_tokens a ++ before_tokens ub
              ++ since_tokens (final_since a ls))%list; reflexivity.
Qed.

Lemma query_begins_with_type_ticket_witness :
  exists req,
    requests_of sample_client args_org_since (sample_world sample_results)
      = [req]
    /\ if has_filters args_org_since
       then exists q, param "query" req = Some q /\ prefix "type:ticket" q = true
       else param "query" req = None.
Proof.
  eexists. split; [vm_compute; reflexivity|].
  apply (query_begins_with_type_ticket sample_client args_org_since
           (sample_world sample_results)).
  vm_compute. left. reflexivity.
Defined.

(** * Properties of the methods that go through the SDK *)

Section SdkFacts.

Import Sdk.

(** ** Attributes *)

Lemma lookup_store_same (name : string) (v : pyval) (attrs : list (string * pyval)) :
  lookup name (store name v attrs) = Some v.
Proof.
  induction attrs as [|[k x] rest IH]; cbn [store lookup].
  - now rewrite String.eqb_refl.
  - destruct (String.eqb k name) eqn:E; cbn [lookup]; now rewrite E.
Qed.

Lemma lookup_store_other (name other : string) (v : pyval)
    (attrs : list (string * pyval)) :
  other <> name -> lookup other (store name v attrs) = lookup other attrs.
Proof.
  intros Hne. induction attrs as [|[k x] rest IH]; cbn [store lookup].
  - destruct (String.eqb_spec name other) as [E|_]; [now subst|reflexivity].
  - destruct (String.eqb_spec k name) as [->|Hk]; cbn [lookup].
    + destruct (String.eqb_spec name other) as [E|_]; [now subst|reflexivity].
    + destruct (String.eqb k other); [reflexivity | exact IH].
Qed.

Lemma apply_fields_obj (fields : list (string * pyval))
    (attrs : list (string * pyval)) :
  apply_fields fields (VObj attrs) = inr (VObj (set_fields fields attrs)).
Proof.
  revert attrs. induction fields as [|[key value] rest IH]; intros attrs.
  - reflexivity.
  - cbn [apply_fields set_fields fold_left fst snd].
    destruct (is_none value); [apply IH|].
    cbn [setattr ebind]. apply IH.
Qed.

Lemma set_fields_untouched (fields : list (string * pyval))
    (attrs : list (string * pyval)) (name : string) :
  (forall v, In (name, v) fields -> v = VNone) ->
  lookup name (set_fields fields attrs) = lookup name attrs.
Proof.
  revert attrs. induction fields as [|[key value] rest IH]; intros attrs H.
  - reflexivity.
  - cbn [set_fields fold_left fst snd].
    assert (Hrest : forall v, In (name, v) rest -> v = VNone)
      by (intros v Hv; apply H; now right).
    destruct (is_none value) eqn:Hn; [now apply IH|].
    unfold set_fields in IH. rewrite (IH _ Hrest).
    apply lookup_store_other. intros ->.
    rewrite (H value (or_introl eq_refl)) in Hn. discriminate Hn.
Qed.

Lemma set_fields_given (fields : list (string * pyval))
    (attrs : list (string * pyval)) (name : string) (v : pyval) :
  NoDup (map fst fields) ->
  In (name, v) fields -> v <> VNone ->
  lookup name (set_fields fields attrs) = Some v.
Proof.
  revert attrs. induction fields as [|[key value] rest IH]; intros attrs Hnd Hin Hv.
  - destruct Hin.
  - cbn [map fst] in Hnd. apply NoDup_cons_iff in Hnd as [Hnot Hnd].
    cbn [set_fields fold_left fst snd]. destruct Hin as [E|Hin].
    + injection E as -> ->.
      destruct (is_none v) eqn:Hn; [destruct v; try discriminate Hn; now contradiction Hv|].
      assert (Hrest : forall x, In (name, x) rest -> x = VNone).
      { intros x Hx. contradiction Hnot.
        change name with (fst (name, x)). now apply in_map. }
      pose proof (set_fields_untouched rest (store name v attrs) name Hrest) as E.
      unfold set_fields in E. rewrite E. apply lookup_store_same.
    + unfold set_fields in IH.
      destruct (is_none value); now apply IH.
Qed.

Ltac log_norm :=
  unfold logged, list_append; cbn [snd fst calls zenpy render];
  rewrite <- ?app_assoc; cbn [app].

(** ** [update_ticket] *)

(** X12: when the ticket is loaded, [update_ticket] submits it with the
    fields of the call that are not [None] set to their values and with
    every other attribute, the fields given as [None] included, as it was
    loaded. *)
Theorem update_ticket_submits_non_none_fields (ticket_id : Z)
    (fields : list (string * pyval)) (w : World)
    (attrs : list (string * pyval)) :
  NoDup (map fst fields) ->
  tickets_get (zenpy w) (calls w) (VInt ticket_id) = inr (VObj attrs) ->
  exists submitted rest,
    calls (snd (update_ticket ticket_id fields w))
    = (calls w ++ TicketsGet (VInt ticket_id)
         :: TicketsUpdate (VObj submitted) :: rest)%list
    /\ (forall name v, In (name, v) fields -> v <> VNone ->
          lookup name submitted = Some v)
    /\ (forall name, (forall v, In (name, v) fields -> v = VNone) ->
          lookup name submitted = lookup name attrs).
Proof.
  intros Hnd Hget.
  exists (set_fields fields attrs).
  unfold update_ticket, guarded, bind, tickets, lift, update.
  rewrite Hget, apply_fields_obj. log_norm.
  destruct (tickets_update _ _ _) as [e|audit].
  - exists []. split; [log_norm; reflexivity|].
    split; [intros; now apply set_fields_given
           | intros; now apply set_fields_untouched].
  - destruct (tickets_get (zenpy w) (calls w ++ _)%list _) as [e|refreshed];
      [|destruct (detail_of _ refreshed)];
      (exists [TicketsGet (VInt ticket_id)];
       split; [log_norm; reflexivity|];
       split; [intros; now apply set_fields_given
              | intros; now apply set_fields_untouched]).
Qed.

Ltac distinct_keys :=
  cbn [map fst]; repeat constructor; cbn [In]; intuition discriminate.

Lemma update_ticket_submits_non_none_fields_witness :
  exists submitted rest,
    calls (snd (update_ticket 17 [("status", VStr "solved"); ("priority", VNone)]
                  (SdkSample.world SdkSample.audit_with_ticket)))
    = (calls (SdkSample.world SdkSample.audit_with_ticket)
         ++ TicketsGet (VInt 17) :: TicketsUpdate (VObj submitted) :: rest)%list
    /\ (forall name v,
          In (name, v) [("status", VStr "solved"); ("priority", VNone)] ->
          v <> VNone -> lookup name submitted = Some v)
    /\ (forall name,
          (forall v, In (name, v) [("status", VStr "solved"); ("priority", VNone)] ->
             v = VNone) ->
          lookup name submitted
          = lookup name
              [("id", VInt 17); ("subject", VStr "printer");
               ("description", VStr "It is broken"); ("status", VStr "open");
               ("priority", VStr "high");
               ("created_at", VStr "2026-02-26 10:00:00");
               ("updated_at", VStr "2026-02-26 10:00:00");
               ("requester_id", VInt 5); ("assignee_id", VNone);
               ("organization_id", VNone);
               ("tags", VList [VStr "hardware"])]).
Proof.
  apply (update_ticket_submits_non_none_fields 17
           [("status", VStr "solved"); ("priority", VNone)]
           (SdkSample.world SdkSample.audit_with_ticket)).
  - distinct_keys.
  - reflexivity.
Defined.

Lemma py_str_render (w1 w2 : World) (v : pyval) :
  render w1 = render w2 -> py_str w1 v = py_str w2 v.
Proof. intros H. unfold py_str. now rewrite H. Qed.

Lemma detail_of_render (w1 w2 : World) (t : pyval) :
  render w1 = render w2 -> detail_of w1 t = detail_of w2 t.
Proof.
  intros H. unfold detail_of.
  repeat (match goal with
          | |- ebind ?r _ = ebind ?r _ => destruct r as [?|?]; [reflexivity|cbn [ebind]]
          end).
  now rewrite !(py_str_render w1 w2 _ H).
Qed.

(** X13: when its three calls succeed, [update_ticket] has made exactly
    them, loading, updating and loading again, and what it returns is
    built from the second loading alone; what the update call answered is
    not read. *)
Theorem update_ticket_reads_back (ticket_id : Z)
    (fields : list (string * pyval)) (w : World)
    (ticket submitted audit refreshed : pyval) :
  tickets_get (zenpy w) (calls w) (VInt ticket_id) = inr ticket ->
  apply_fields fields ticket = inr submitted ->
  tickets_update (zenpy w) (calls w ++ [TicketsGet (VInt ticket_id)])%list
    submitted = inr audit ->
  tickets_get (zenpy w)
    (calls w ++ [TicketsGet (VInt ticket_id); TicketsUpdate submitted])%list
    (VInt ticket_id) = inr refreshed ->
  calls (snd (update_ticket ticket_id fields w))
  = (calls w ++ [TicketsGet (VInt ticket_id); TicketsUpdate submitted;
                 TicketsGet (VInt ticket_id)])%list
  /\ fst (update_ticket ticket_id fields w)
     = match detail_of w refreshed with
       | inl e =>
           inl (Failed ("Failed to update ticket " ++ PyStr.str_of_int ticket_id) e)
       | inr d => inr d
       end.
Proof.
  intros Hget Happly Hup Hget2.
  unfold update_ticket, guarded, bind, tickets, lift, update.
  rewrite Hget, Happly. log_norm. rewrite Hup. log_norm. rewrite Hget2.
  rewrite (detail_of_render (mkWorld (zenpy w) (render w) _) w refreshed eq_refl).
  destruct (detail_of w refreshed); log_norm; split; reflexivity.
Qed.

Lemma update_ticket_reads_back_witness :
  (exists d,
     fst (update_ticket 17 [("status", VStr "solved"); ("priority", VNone)]
            (SdkSample.world SdkSample.audit_with_ticket)) = inr d
     /\ d_status d = VStr "solved" /\ d_priority d = VStr "high")
  /\ calls (snd (update_ticket 17 [("status", VStr "solved"); ("priority", VNone)]
                   (SdkSample.world SdkSample.audit_with_ticket)))
     = (calls (SdkSample.world SdkSample.audit_with_ticket)
          ++ [TicketsGet (VInt 17);
              TicketsUpdate
                (VObj (set_fields [("status", VStr "solved"); ("priority", VNone)]
                         [("id", VInt 17); ("subject", VStr "printer");
                          ("description", VStr "It is broken");
                          ("status", VStr "open"); ("priority", VStr "high");
                          ("created_at", VStr "2026-02-26 10:00:00");
                          ("updated_at", VStr "2026-02-26 10:00:00");
                          ("requester_id", VInt 5); ("assignee_id", VNone);
                          ("organization_id", VNone);
                          ("tags", VList [VStr "hardware"])]));
              TicketsGet (VInt 17)])%list
  /\ fst (update_ticket 17 [("status", VStr "solved"); ("priority", VNone)]
            (SdkSample.world SdkSample.audit_with_ticket))
     = match detail_of (SdkSample.world SdkSample.audit_with_ticket)
               (VObj [("id", VInt 17); ("subject", VStr "printer");
                      ("description", VStr "It is broken");
                      ("status", VStr "solved"); ("priority", VStr "high");
                      ("created_at", VStr "2026-02-26 10:00:00");
                      ("updated_at", VStr "2026-02-26 10:00:00");
                      ("requester_id", VInt 5); ("assignee_id", VNone);
                      ("organization_id", VNone);
                      ("tags", VList [VStr "hardware"])]) with
       | inl e => inl (Failed ("Failed to update ticket " ++ PyStr.str_of_int 17) e)
       | inr d => inr d
       end.
Proof.
  split; [eexists; split; [vm_compute; reflexivity | split; reflexivity]|].
  eapply (update_ticket_reads_back 17
            [("status", VStr "solved"); ("priority", VNone)]
            (SdkSample.world SdkSample.audit_with_ticket));
    reflexivity.
Defined.

(** X14: when the ticket cannot be loaded, or a field cannot be set on
    what was loaded, [update_ticket] fails with that error under its own
    message and submits nothing: the loading is its only call. *)
Theorem update_ticket_stops_before_update (ticket_id : Z)
    (fields : list (string * pyval)) (w : World) (e : error) :
  tickets_get (zenpy w) (calls w) (VInt ticket_id) = inl e
  \/ (exists ticket,
        tickets_get (zenpy w) (calls w) (VInt ticket_id) = inr ticket
        /\ apply_fields fields ticket = inl e) ->
  fst (update_ticket ticket_id fields w)
  = inl (Failed ("Failed to update ticket " ++ PyStr.str_of_int ticket_id) e)
  /\ calls (snd (update_ticket ticket_id fields w))
     = (calls w ++ [TicketsGet (VInt ticket_id)])%list.
Proof.
  intros [Hget | (ticket & Hget & Happly)];
    unfold update_ticket, guarded, bind, tickets, lift, update;
    rewrite Hget; [|rewrite Happly]; log_norm; split; reflexivity.
Qed.

Lemma update_ticket_stops_before_update_witness :
  fst (update_ticket 17 [("status", VStr "solved")]
         (SdkSample.failing (SdkError "RecordNotFound")))
  = inl (Failed ("Failed to update ticket " ++ PyStr.str_of_int 17)
           (SdkError "RecordNotFound"))
  /\ calls (snd (update_ticket 17 [("status", VStr "solved")]
                   (SdkSample.failing (SdkError "RecordNotFound"))))
     = (calls (SdkSample.failing (SdkError "RecordNotFound"))
          ++ [TicketsGet (VInt 17)])%list.
Proof.
  apply (update_ticket_stops_before_update 17 [("status", VStr "solved")]
           (SdkSample.failing (SdkError "RecordNotFound"))
           (SdkError "RecordNotFound")).
  left. reflexivity.
Defined.

(** X15: the dict of [update_ticket] needs the ten plain attributes of the
    refreshed ticket, and lets [type] and [tags] be missing: a
    missing [type] is [None], and [tags] that are missing, [None] or empty
    are the empty list. *)
Theorem update_result_defaults (w : World) (attrs : list (string * pyval))
    (d : TicketDetail) :
  detail_of w (VObj attrs) = inr d ->
  d_type d = match lookup "type" attrs with Some v => v | None => VNone end
  /\ (lookup "tags" attrs = None \/ lookup "tags" attrs = Some VNone
      \/ lookup "tags" attrs = Some (VList []) ->
      d_tags d = [])
  /\ (forall name,
        In name ["id"; "subject"; "description"; "status"; "priority";
                 "created_at"; "updated_at"; "requester_id"; "assignee_id";
                 "organization_id"] ->
        lookup name attrs <> None).
Proof.
  unfold detail_of, attr, getattr. cbn [ebind].
  destruct (lookup "id" attrs) eqn:E1; cbn [ebind]; [|discriminate].
  destruct (lookup "subject" attrs) eqn:E2; cbn [ebind]; [|discriminate].
  destruct (lookup "description" attrs) eqn:E3; cbn [ebind]; [|discriminate].
  destruct (lookup "status" attrs) eqn:E4; cbn [ebind]; [|discriminate].
  destruct (lookup "priority" attrs) eqn:E5; cbn [ebind]; [|discriminate].
  destruct (lookup "created_at" attrs) eqn:E6; cbn [ebind]; [|discriminate].
  destruct (lookup "updated_at" attrs) eqn:E7; cbn [ebind]; [|discriminate].
  destruct (lookup "requester_id" attrs) eqn:E8; cbn [ebind]; [|discriminate].
  destruct (lookup "assignee_id" attrs) eqn:E9; cbn [ebind]; [|discriminate].
  destruct (lookup "organization_id" attrs) eqn:E10; cbn [ebind]; [|discriminate].
  destruct (to_list _) as [e|tags] eqn:Et; cbn [ebind]; [discriminate|].
  intros H. injection H as <-. cbn [d_type d_tags].
  split; [reflexivity|]. split.
  - intros [Hn | [Hn | Hn]]; rewrite Hn in Et; cbn in Et;
      now injection Et as <-.
  - intros name Hin. cbn [In] in Hin.
    repeat (destruct Hin as [<-|Hin]; [congruence|]). destruct Hin.
Qed.

Lemma update_result_defaults_witness :
  exists d,
    detail_of (SdkSample.world SdkSample.audit_with_ticket)
      (VObj [("id", VInt 17); ("subject", VStr "printer");
             ("description", VNone); ("status", VStr "open");
             ("priority", VNone); ("created_at", VNone); ("updated_at", VNone);
             ("requester_id", VInt 5); ("assignee_id", VNone);
             ("organization_id", VNone); ("tags", VNone)]) = inr d
    /\ d_created_at d = "None"
    /\ d_type d = VNone
    /\ d_tags d = [].
Proof.
  eexists. split; [reflexivity|]. split; [reflexivity|].
  pose proof (update_result_defaults
                (SdkSample.world SdkSample.audit_with_ticket)
                [("id", VInt 17); ("subject", VStr "printer");
                 ("description", VNone); ("status", VStr "open");
                 ("priority", VNone); ("created_at", VNone);
                 ("updated_at", VNone); ("requester_id", VInt 5);
                 ("assignee_id", VNone); ("organization_id", VNone);
                 ("tags", VNone)] _ eq_refl) as (Hty & Htags & _).
  split; [exact Hty|]. apply Htags. right. left. reflexivity.
Defined.

(** X16: on a ticket from which [update_ticket] builds its dict,
    [get_ticket] builds its own, and the ten fields the two share are
    equal. *)
Theorem update_result_agrees_with_get_ticket (w : World) (t : pyval)
    (d : TicketDetail) :
  detail_of w t = inr d -> basic_of w t = inr (basic_part d).
Proof.
  unfold detail_of, basic_of.
  repeat (match goal with
          | |- ebind ?r _ = _ -> _ =>
              destruct r as [?|?]; cbn [ebind]; [discriminate|]
          end).
  intros H. injection H as <-. reflexivity.
Qed.

Lemma update_result_agrees_with_get_ticket_witness :
  exists d,
    fst (update_ticket 17 [("status", VStr "solved")]
           (SdkSample.world SdkSample.audit_with_ticket)) = inr d
    /\ fst (get_ticket 17
              (snd (update_ticket 17 [("status", VStr "solved")]
                      (SdkSample.world SdkSample.audit_with_ticket))))
       = inr (basic_part d)
    /\ basic_of (SdkSample.world SdkSample.audit_with_ticket)
         (VObj [("id", VInt 17); ("subject", VStr "printer");
                ("description", VStr "It is broken"); ("status", VStr "solved");
                ("priority", VStr "high");
                ("created_at", VStr "2026-02-26 10:00:00");
                ("updated_at", VStr "2026-02-26 10:00:00");
                ("requester_id", VInt 5); ("assignee_id", VNone);
                ("organization_id", VNone);
                ("tags", VList [VStr "hardware"])])
       = inr (basic_part d).
Proof.
  eexists. split; [vm_compute; reflexivity|].
  split; [vm_compute; reflexivity|].
  apply (update_result_agrees_with_get_ticket
           (SdkSample.world SdkSample.audit_with_ticket)).
  reflexivity.
Defined.

(** ** [create_ticket] *)

(** X17: when the audit of the creation gives no id that is true (none,
    [None], or zero), [create_ticket] loads nothing and still returns a
    dict: the caller's own values, with the status [new], empty dates, no
    organization, and the id the audit gave. *)
Theorem create_ticket_without_id_echoes_inputs (t : NewTicket) (w : World)
    (audit : pyval) :
  tickets_create (zenpy w) (calls w) t = inr audit ->
  truthy (audit_ticket_id audit) = false ->
  calls (snd (create_ticket t w)) = (calls w ++ [TicketsCreate t])%list
  /\ fst (create_ticket t w)
     = inr (mkTicketDetail (audit_ticket_id audit)
              (VStr (new_subject t)) (VStr (new_description t)) (VStr "new")
              (of_str (new_priority t)) (of_str (new_type t))
              EmptyString EmptyString
              (of_int (new_requester_id t)) (of_int (new_assignee_id t))
              VNone
              (match new_tags t with
               | Some tags => map VStr tags
               | None => []
               end)).
Proof.
  intros Hc Hid.
  unfold create_ticket, guarded, bind, create.
  rewrite Hc. log_norm. rewrite Hid. unfold ret, created_dict.
  cbn [getattr py_str].
  destruct (new_tags t) as [[|x l]|]; cbn [of_strs or_else truthy map to_list ebind];
    split; reflexivity.
Qed.

Lemma create_ticket_without_id_echoes_inputs_witness :
  audit_ticket_id SdkSample.audit_without_id = VNone
  /\ calls (snd (create_ticket SdkSample.new_ticket
                   (SdkSample.world SdkSample.audit_without_id)))
     = (calls (SdkSample.world SdkSample.audit_without_id)
          ++ [TicketsCreate SdkSample.new_ticket])%list
  /\ fst (create_ticket SdkSample.new_ticket
            (SdkSample.world SdkSample.audit_without_id))
     = inr (mkTicketDetail (audit_ticket_id SdkSample.audit_without_id)
              (VStr (new_subject SdkSample.new_ticket))
              (VStr (new_description SdkSample.new_ticket)) (VStr "new")
              (of_str (new_priority SdkSample.new_ticket))
              (of_str (new_type SdkSample.new_ticket))
              EmptyString EmptyString
              (of_int (new_requester_id SdkSample.new_ticket))
              (of_int (new_assignee_id SdkSample.new_ticket))
              VNone
              (match new_tags SdkSample.new_ticket with
               | Some tags => map VStr tags
               | None => []
               end)).
Proof.
  split; [reflexivity|].
  apply (create_ticket_without_id_echoes_inputs SdkSample.new_ticket
           (SdkSample.world SdkSample.audit_without_id)
           SdkSample.audit_without_id); reflexivity.
Defined.

(** X18: when the audit gives an id that is true, [create_ticket] loads the
    ticket of that id, the id of the audit's ticket or, when that one is
    missing or [None], the id of the audit itself; when this loading fails,
    the method fails although the creation was made. *)
Theorem create_ticket_loads_by_audit_id (t : NewTicket) (w : World)
    (audit : pyval) :
  tickets_create (zenpy w) (calls w) t = inr audit ->
  truthy (audit_ticket_id audit) = true ->
  audit_ticket_id audit
  = (if is_none (getattr (getattr audit "ticket" VNone) "id" VNone)
     then getattr audit "id" VNone
     else getattr (getattr audit "ticket" VNone) "id" VNone)
  /\ calls (snd (create_ticket t w))
     = (calls w ++ [TicketsCreate t; TicketsGet (audit_ticket_id audit)])%list
  /\ (forall e,
        tickets_get (zenpy w) (calls w ++ [TicketsCreate t])%list
          (audit_ticket_id audit) = inl e ->
        fst (create_ticket t w) = inl (Failed "Failed to create ticket" e)).
Proof.
  intros Hc Hid. split; [reflexivity|].
  unfold create_ticket, guarded, bind, create, tickets.
  rewrite Hc. log_norm. rewrite Hid. log_norm.
  destruct (tickets_get (zenpy w) (calls w ++ [TicketsCreate t])%list
              (audit_ticket_id audit)) as [e|created].
  - split; [reflexivity|]. intros e' E. now injection E as <-.
  - destruct (created_dict _ t created (audit_ticket_id audit));
      (split; [reflexivity | intros e' E; discriminate E]).
Qed.

Lemma create_ticket_loads_by_audit_id_witness :
  audit_ticket_id (VObj [("id", VInt 900)]) = VInt 900
  /\ audit_ticket_id SdkSample.audit_with_ticket = VInt 17
  /\ calls (snd (create_ticket SdkSample.new_ticket
                   (SdkSample.world SdkSample.audit_with_ticket)))
     = (calls (SdkSample.world SdkSample.audit_with_ticket)
          ++ [TicketsCreate SdkSample.new_ticket;
              TicketsGet (audit_ticket_id SdkSample.audit_with_ticket)])%list.
Proof.
  split; [reflexivity|]. split; [reflexivity|].
  apply (create_ticket_loads_by_audit_id SdkSample.new_ticket
           (SdkSample.world SdkSample.audit_with_ticket)
           SdkSample.audit_with_ticket); reflexivity.
Defined.



(** ** [get_all_articles] *)

Lemma okey_eqb_eq (x y : option string) : okey_eqb x y = true <-> x = y.
Proof.
  destruct x as [a|], y as [b|]; cbn [okey_eqb]; split; try congruence.
  - intros H. apply String.eqb_eq in H. now subst.
  - intros H. injection H as ->. apply String.eqb_refl.
Qed.

Lemma okey_eqb_refl (x : option string) : okey_eqb x x = true.
Proof. now apply okey_eqb_eq. Qed.

Lemma dict_get_set_same {V} (k : option string) (v : V)
    (kb : list (option string * V)) :
  dict_get k (dict_set k v kb) = Some v.
Proof.
  induction kb as [|[k0 v0] rest IH]; cbn [dict_set dict_get].
  - now rewrite okey_eqb_refl.
  - destruct (okey_eqb k0 k) eqn:E; cbn [dict_get]; now rewrite E.
Qed.

Lemma dict_get_set_other {V} (k other : option string) (v : V)
    (kb : list (option string * V)) :
  okey_eqb k other = false ->
  dict_get other (dict_set k v kb) = dict_get other kb.
Proof.
  intros Hne. induction kb as [|[k0 v0] rest IH]; cbn [dict_set dict_get].
  - now rewrite Hne.
  - destruct (okey_eqb k0 k) eqn:E; cbn [dict_get].
    + apply okey_eqb_eq in E. subst k0. now rewrite Hne.
    + destruct (okey_eqb k0 other); [reflexivity | exact IH].
Qed.

Lemma dict_set_keys {V} (k : option string) (v : V)
    (kb : list (option string * V)) :
  (In k (map fst kb) /\ map fst (dict_set k v kb) = map fst kb)
  \/ (~ In k (map fst kb) /\ map fst (dict_set k v kb) = (map fst kb ++ [k])%list).
Proof.
  induction kb as [|[k0 v0] rest IH]; cbn [dict_set map fst].
  - right. split; [intros []|reflexivity].
  - destruct (okey_eqb k0 k) eqn:E; cbn [map fst].
    + left. apply okey_eqb_eq in E. subst k0. split; [now left|reflexivity].
    + destruct IH as [(Hi & ->) | (Hn & ->)].
      * left. split; [now right|reflexivity].
      * right. split; [|reflexivity].
        intros [H|H]; [|contradiction].
        subst k0. rewrite okey_eqb_refl in E. discriminate E.
Qed.

Lemma dict_set_nodup {V} (k : option string) (v : V)
    (kb : list (option string * V)) :
  NoDup (map fst kb) -> NoDup (map fst (dict_set k v kb)).
Proof.
  intros H. destruct (dict_set_keys k v kb) as [(_ & ->) | (Hn & ->)];
    [assumption|].
  apply NoDup_app; [assumption | repeat constructor; intros [] |].
  intros x Hx [<-|[]]. contradiction.
Qed.

Lemma dict_set_in {V} (k other : option string) (v : V)
    (kb : list (option string * V)) :
  In other (map fst (dict_set k v kb)) <-> other = k \/ In other (map fst kb).
Proof.
  destruct (dict_set_keys k v kb) as [(Hi & ->) | (Hn & ->)].
  - split; [now right|]. intros [->|H]; assumption.
  - rewrite in_app_iff. cbn [In]. intuition.
Qed.

(** What the loop of [get_all_articles] adds to the log and to [kb]. *)
Lemma kb_loop_spec (todo : list Section) :
  forall (kb kb' : list (option string * SectionDict)) (w w' : World),
    kb_loop todo kb w = (inr kb', w') ->
    calls w' = (calls w
                ++ map (fun s => SectionArticles (section_id s)) todo)%list
    /\ (NoDup (map fst kb) -> NoDup (map fst kb'))
    /\ (forall name,
          In name (map fst kb')
          <-> In name (map fst kb) \/ In name (map section_name todo))
    /\ (forall name e,
          dict_get name kb' = Some e ->
          (last_named name todo = None /\ dict_get name kb = Some e)
          \/ (exists sec hist arts,
                last_named name todo = Some sec
                /\ section_articles (zenpy w) hist (section_id sec) = inr arts
                /\ e = mkSectionDict (section_id sec) (section_description sec)
                         (map (article_dict w) arts))).
Proof.
  induction todo as [|sec rest IH]; intros kb kb' w w' Hrun.
  - cbn [kb_loop] in Hrun. unfold ret in Hrun. injection Hrun as <- <-.
    cbn [map last_named In]. rewrite app_nil_r.
    split; [reflexivity|]. split; [auto|]. split; [intros; tauto|].
    intros name e He. now left.
  - cbn [kb_loop] in Hrun. unfold bind, articles_of in Hrun.
    destruct (section_articles (zenpy w) (calls w) (section_id sec))
      as [err|arts] eqn:Ea; [discriminate Hrun|].
    apply IH in Hrun as (Hc & Hnd & Hin & Hget).
    unfold logged, list_append in Hc, Hget. cbn [calls zenpy] in Hc, Hget.
    split; [rewrite Hc, <- app_assoc; reflexivity|].
    split; [intros H; apply Hnd; now apply dict_set_nodup|].
    split.
    + intros name. rewrite Hin, dict_set_in. cbn [map In]. intuition.
    + intros name e He. cbn [last_named].
      destruct (Hget name e He) as [(Hl & Hd) | (s & hist & arts' & Hl & Hs & ->)].
      * rewrite Hl. destruct (okey_eqb (section_name sec) name) eqn:E.
        -- right. apply okey_eqb_eq in E. subst name.
           rewrite dict_get_set_same in Hd. injection Hd as <-.
           exists sec, (calls w), arts. split; [reflexivity|].
           split; [exact Ea|]. reflexivity.
        -- left. split; [reflexivity|].
           now rewrite dict_get_set_other in Hd.
      * right. rewrite Hl. exists s, hist, arts'.
        split; [reflexivity|]. split; [exact Hs|]. reflexivity.
Qed.

Lemma get_all_articles_run (w : World) (todo : list Section)
    (kb : list (option string * SectionDict)) :
  help_sections (zenpy w) (calls w) = inr todo ->
  fst (get_all_articles w) = inr kb ->
  exists w',
    kb_loop todo [] (logged HelpSections w) = (inr kb, w')
    /\ snd (get_all_articles w) = w'.
Proof.
  intros Hs. unfold get_all_articles, guarded, bind, sections. rewrite Hs.
  destruct (kb_loop todo [] (logged HelpSections w)) as [[e|kb0] w'];
    cbn [fst snd]; [discriminate|].
  intros H. injection H as <-. now exists w'.
Qed.

(** X20: the knowledge base has one entry per section name; when several
    sections have the same name, the entry is that of the last of them,
    with its id, its description and its articles, and the earlier ones
    are lost. *)
Theorem knowledge_base_last_section_wins (w : World) (todo : list Section)
    (kb : list (option string * SectionDict)) :
  help_sections (zenpy w) (calls w) = inr todo ->
  fst (get_all_articles w) = inr kb ->
  NoDup (map fst kb)
  /\ (forall name, In name (map fst kb) <-> In name (map section_name todo))
  /\ (List.length kb <= List.length todo)%nat
  /\ (forall name e,
        dict_get name kb = Some e ->
        exists sec hist arts,
          last_named name todo = Some sec
          /\ section_articles (zenpy w) hist (section_id sec) = inr arts
          /\ e = mkSectionDict (section_id sec) (section_description sec)
                   (map (article_dict w) arts)).
Proof.
  intros Hs Hr.
  destruct (get_all_articles_run w todo kb Hs Hr) as (w' & Hloop & _).
  apply kb_loop_spec in Hloop as (_ & Hnd & Hin & Hget).
  assert (Hn : NoDup (map fst kb)) by (apply Hnd; constructor).
  assert (Hi : forall name,
             In name (map fst kb) <-> In name (map section_name todo)).
  { intros name. rewrite Hin. cbn [map In]. tauto. }
  split; [exact Hn|]. split; [exact Hi|]. split.
  - rewrite <- (length_map fst kb), <- (length_map section_name todo).
    apply NoDup_incl_length; [exact Hn|]. intros x Hx. now apply Hi.
  - intros name e He.
    destruct (Hget name e He) as [(_ & Hd) | H]; [discriminate Hd | exact H].
Qed.

Lemma knowledge_base_last_section_wins_witness :
  exists kb e,
    fst (get_all_articles (SdkSample.world SdkSample.audit_with_ticket)) = inr kb
    /\ map fst kb = [Some "FAQ"; Some "Guides"]
    /\ dict_get (Some "FAQ") kb = Some e
    /\ s_section_id e = VInt 3
    /\ NoDup (map fst kb)
    /\ (forall name,
          In name (map fst kb)
          <-> In name (map section_name
                         [SdkSample.section 1 "FAQ"; SdkSample.section 2 "Guides";
                          SdkSample.section 3 "FAQ"]))
    /\ (List.length kb <= 3)%nat.
Proof.
  eexists _, _. split; [vm_compute; reflexivity|]. split; [reflexivity|].
  split; [reflexivity|]. split; [reflexivity|].
  pose proof (knowledge_base_last_section_wins
                (SdkSample.world SdkSample.audit_with_ticket)
                [SdkSample.section 1 "FAQ"; SdkSample.section 2 "Guides";
                 SdkSample.section 3 "FAQ"] _ eq_refl eq_refl)
    as (Hn & Hi & Hl & _).
  split; [exact Hn|]. split; [exact Hi | exact Hl].
Defined.

(** X21: a successful [get_all_articles] has asked for the sections once
    and then for the articles of every section, in the order of the
    sections, those whose entry a later section replaces included. *)
Theorem knowledge_base_calls (w : World) (todo : list Section)
    (kb : list (option string * SectionDict)) :
  help_sections (zenpy w) (calls w) = inr todo ->
  fst (get_all_articles w) = inr kb ->
  calls (snd (get_all_articles w))
  = (calls w ++ HelpSections
       :: map (fun s => SectionArticles (section_id s)) todo)%list.
Proof.
  intros Hs Hr.
  destruct (get_all_articles_run w todo kb Hs Hr) as (w' & Hloop & ->).
  apply kb_loop_spec in Hloop as (Hc & _).
  rewrite Hc. log_norm. reflexivity.
Qed.

Lemma knowledge_base_calls_witness :
  calls (snd (get_all_articles (SdkSample.world SdkSample.audit_with_ticket)))
  = (calls (SdkSample.world SdkSample.audit_with_ticket)
       ++ HelpSections
       :: map (fun s => SectionArticles (section_id s))
            [SdkSample.section 1 "FAQ"; SdkSample.section 2 "Guides";
             SdkSample.section 3 "FAQ"])%list.
Proof.
  eapply (knowledge_base_calls (SdkSample.world SdkSample.audit_with_ticket)).
  - reflexivity.
  - vm_compute. reflexivity.
Defined.

(** ** [get_ticket_comments] and [post_comment] *)

Lemma comprehend_ok {A B} (f : A -> error + B) (l : list A) (out : list B) :
  comprehend f l = inr out -> Forall2 (fun x y => f x = inr y) l out.
Proof.
  revert out. induction l as [|x rest IH]; intros out H; cbn [comprehend] in H.
  - injection H as <-. constructor.
  - destruct (f x) as [e|y] eqn:Ex; cbn [ebind] in H; [discriminate|].
    destruct (comprehend f rest) as [e|ys]; cbn [ebind] in H; [discriminate|].
    injection H as <-. constructor; [exact Ex | now apply IH].
Qed.

Lemma comprehend_fails {A B} (f : A -> error + B) (l : list A) (x : A) (e : error) :
  In x l -> f x = inl e -> exists e', comprehend f l = inl e'.
Proof.
  intros Hin Hx. induction l as [|y rest IH]; [destruct Hin|].
  cbn [comprehend]. destruct Hin as [->|Hin].
  - rewrite Hx. now exists e.
  - destruct (f y) as [e0|b]; cbn [ebind]; [now exists e0|].
    destruct (IH Hin) as (e' & ->). now exists e'.
Qed.

(** X22: the list [get_ticket_comments] returns has one dict per comment
    of the SDK, in order; one comment that lacks an attribute makes the
    whole call fail. *)
Theorem comments_all_or_nothing (ticket_id : Z) (w : World)
    (comments : list pyval) :
  tickets_comments (zenpy w) (calls w) (VInt ticket_id) = inr comments ->
  (forall out, fst (get_ticket_comments ticket_id w) = inr out ->
     Forall2 (fun c d => comment_of w c = inr d) comments out
     /\ List.length out = List.length comments)
  /\ (forall c e, In c comments -> comment_of w c = inl e ->
        exists e',
          fst (get_ticket_comments ticket_id w)
          = inl (Failed ("Failed to get comments for ticket "
                         ++ PyStr.str_of_int ticket_id) e')).
Proof.
  intros Hc.
  assert (Hrun : fst (get_ticket_comments ticket_id w)
                 = match comprehend (comment_of w) comments with
                   | inl e => inl (Failed ("Failed to get comments for ticket "
                                           ++ PyStr.str_of_int ticket_id) e)
                   | inr out => inr out
                   end).
  { unfold get_ticket_comments, guarded, bind, comments_of. rewrite Hc.
    change (comment_of (logged (TicketsComments (VInt ticket_id)) w))
      with (comment_of w).
    now destruct (comprehend (comment_of w) comments). }
  rewrite Hrun. split.
  - intros out H.
    destruct (comprehend (comment_of w) comments) as [e|out'] eqn:E;
      [discriminate|].
    injection H as <-. apply comprehend_ok in E.
    split; [exact E|]. symmetry. now apply (Forall2_length E).
  - intros c e Hin He.
    destruct (comprehend_fails (comment_of w) comments c e Hin He) as (e' & ->).
    now exists e'.
Qed.

Lemma comments_all_or_nothing_witness :
  (exists out,
     fst (get_ticket_comments 17 (SdkSample.world SdkSample.audit_with_ticket))
       = inr out
     /\ Forall2
          (fun c d =>
             comment_of (SdkSample.world SdkSample.audit_with_ticket) c = inr d)
          [SdkSample.comment 1; SdkSample.comment 2] out
     /\ List.length out = 2%nat).
Proof.
  eexists. split; [vm_compute; reflexivity|].
  apply (proj1 (comments_all_or_nothing 17
                  (SdkSample.world SdkSample.audit_with_ticket)
                  [SdkSample.comment 1; SdkSample.comment 2] eq_refl)).
  vm_compute. reflexivity.
Defined.

(** X23: [post_comment] loads the ticket, sets its [comment] to the new
    comment with the text and the visibility given, leaves its other
    attributes alone, and submits it; when the update succeeds the method
    returns the text. *)
Theorem post_comment_submits_the_comment (ticket_id : Z) (comment : string)
    (public : bool) (w : World) (attrs : list (string * pyval)) :
  tickets_get (zenpy w) (calls w) (VInt ticket_id) = inr (VObj attrs) ->
  exists submitted,
    calls (snd (post_comment ticket_id comment public w))
    = (calls w ++ [TicketsGet (VInt ticket_id);
                   TicketsUpdate (VObj submitted)])%list
    /\ lookup "comment" submitted
       = Some (VObj [("html_body", VStr comment); ("public", VBool public)])
    /\ (forall name, name <> "comment" ->
          lookup name submitted = lookup name attrs)
    /\ (forall audit,
          tickets_update (zenpy w) (calls w ++ [TicketsGet (VInt ticket_id)])%list
            (VObj submitted) = inr audit ->
          fst (post_comment ticket_id comment public w) = inr comment).
Proof.
  intros Hget. exists (store "comment" (new_comment comment public) attrs).
  unfold post_comment, guarded, bind, tickets, lift, update, ret.
  rewrite Hget. cbn [setattr]. log_norm.
  destruct (tickets_update _ _ _) as [e|audit] eqn:Eu; log_norm.
  - split; [reflexivity|]. split; [apply lookup_store_same|].
    split; [intros name Hn; now apply lookup_store_other|].
    intros audit H. discriminate H.
  - split; [reflexivity|]. split; [apply lookup_store_same|].
    split; [intros name Hn; now apply lookup_store_other|].
    intros _ _. reflexivity.
Qed.

Lemma post_comment_submits_the_comment_witness :
  fst (post_comment 17 "On it" false
         (SdkSample.world SdkSample.audit_with_ticket)) = inr "On it"
  /\ exists submitted,
       calls (snd (post_comment 17 "On it" false
                     (SdkSample.world SdkSample.audit_with_ticket)))
       = (calls (SdkSample.world SdkSample.audit_with_ticket)
            ++ [TicketsGet (VInt 17); TicketsUpdate (VObj submitted)])%list
       /\ lookup "comment" submitted
          = Some (VObj [("html_body", VStr "On it"); ("public", VBool false)])
       /\ (forall name, name <> "comment" ->
             lookup name submitted
             = lookup name
                 [("id", VInt 17); ("subject", VStr "printer");
                  ("description", VStr "It is broken"); ("status", VStr "open");
                  ("priority", VStr "high");
                  ("created_at", VStr "2026-02-26 10:00:00");
                  ("updated_at", VStr "2026-02-26 10:00:00");
                  ("requester_id", VInt 5); ("assignee_id", VNone);
                  ("organization_id", VNone);
                  ("tags", VList [VStr "hardware"])])
       /\ (forall audit,
             tickets_update
               (zenpy (SdkSample.world SdkSample.audit_with_ticket))
               (calls (SdkSample.world SdkSample.audit_with_ticket)
                  ++ [TicketsGet (VInt 17)])%list
               (VObj submitted) = inr audit ->
             fst (post_comment 17 "On it" false
                    (SdkSample.world SdkSample.audit_with_ticket))
             = inr "On it").
Proof.
  split; [vm_compute; reflexivity|].
  apply (post_comment_submits_the_comment 17 "On it" false
           (SdkSample.world SdkSample.audit_with_ticket)).
  reflexivity.
Defined.

End SdkFacts.
